(** * plot_forecast: a Plotly figure assembler for Prophet forecasts

    Shallow embedding of [plot_forecast.py] and proofs about the figure
    it assembles.

    Python objects that the program shares or mutates (the caller's
    forecast table, the module-level [DEFAULT_PALETTE] dict, the
    caller's [colors] dict, the figure) live in a heap of objects
    addressed by location, so that copying, aliasing and in-place
    mutation are explicit.  Exceptions are values of the computation
    monad; a raised exception keeps the mutations made so far.

    The charting library and the table library are not part of the
    repository.  Their operations used by the program are modelled by
    what they do on the object graph: [DataFrame.copy], [df[col]],
    [col in df.columns], [dict.copy], [dict.update], [go.Figure()],
    [go.Scatter(...)], [Figure.add_trace], [Figure.update_layout].  The
    charting library checks the values it is given and raises
    [ValueError]: [go.Scatter] for a string that is not a colour,
    [update_layout] for a width or height below 10.  These are the
    checks that values of the program's types can fail. *)

From Stdlib Require Import ZArith Floats Ascii.
From stdpp Require Import gmap strings list fin_maps.

Set Warnings "-inexact-float".

Open Scope string_scope.
Open Scope Z_scope.
Open Scope list_scope.

(** ** Data model *)

(** A cell of a table: a timestamp or a number. *)
Inductive cell :=
  | Timestamp (t : Z)
  | Number (v : float).

(** A column of a table ([pd.Series]). *)
Abbreviation Series := (list cell).

(** [pd.DataFrame]: columns by name. *)
Abbreviation DataFrame := (gmap string Series).

(** A palette: [Dict[str, str]]. *)
Abbreviation Palette := (gmap string string).

(** [dict(color=..., width=..., dash=...)] of a scatter trace. *)
Module Line.
Record t := mk {
    color : option string;
    width : option Z;
    dash : option string }.
End Line.

(** [dict(color=..., size=..., opacity=...)] of a scatter trace. *)
Module Marker.
Record t := mk {
    color : option string;
    size : option Z;
    opacity : option Z }.
End Marker.

(** [go.Scatter]: the properties the program sets; a property that a
    call does not pass is [None]. *)
Module Scatter.
Record t := mk {
    x : Series;
    y : Series;
    mode : option string;
    line : option Line.t;
    marker : option Marker.t;
    name : option string;
    fill : option string;
    fillcolor : option string;
    hoverinfo : option string;
    showlegend : option bool }.
End Scatter.

Module Margin.
Record t := mk { l : option Z; r : option Z; t_ : option Z; b : option Z }.
Definition update (new old : t) : t :=
    mk (l new ∪ l old) (r new ∪ r old) (t_ new ∪ t_ old) (b new ∪ b old).
End Margin.

Module Title.
Record t := mk { text : option string; x : option float }.
Definition update (new old : t) : t :=
    mk (text new ∪ text old) (x new ∪ x old).
End Title.

Module Axis.
Record t := mk { title : option string }.
Definition update (new old : t) : t := mk (title new ∪ title old).
End Axis.

Module Legend.
Record t := mk {
    orientation : option string;
    yanchor : option string;
    y : option float }.
Definition update (new old : t) : t :=
    mk (orientation new ∪ orientation old) (yanchor new ∪ yanchor old)
       (y new ∪ y old).
End Legend.

(** The layout of a figure.  The same record serves as the keyword
    arguments of [update_layout]: a property not passed is [None]. *)
Module Layout.
Record t := mk {
    width : option Z;
    height : option Z;
    margin : option Margin.t;
    title : option Title.t;
    xaxis : option Axis.t;
    yaxis : option Axis.t;
    hovermode : option string;
    legend : option Legend.t;
    showlegend : option bool }.

Definition empty : t :=
    mk None None None None None None None None None.

Definition nested {A} (upd : A → A → A) (new old : option A) : option A :=
    union_with (λ n o, Some (upd n o)) new old.

  (** [update_layout] merges property by property, and recursively
      inside a compound property; what is not passed is kept. *)
Definition update (new old : t) : t :=
    mk (width new ∪ width old) (height new ∪ height old)
       (nested Margin.update (margin new) (margin old))
       (nested Title.update (title new) (title old))
       (nested Axis.update (xaxis new) (xaxis old))
       (nested Axis.update (yaxis new) (yaxis old))
       (hovermode new ∪ hovermode old)
       (nested Legend.update (legend new) (legend old))
       (showlegend new ∪ showlegend old).

(** The update as far as [width]. *)
Definition update_width (new old : t) : t :=
    mk (width new ∪ width old) (height old) (margin old) (title old)
       (xaxis old) (yaxis old) (hovermode old) (legend old) (showlegend old).
End Layout.

(** [go.Figure]: the traces in order, and the layout. *)
Module Figure.
Record t := mk { data : list Scatter.t; layout : Layout.t }.
End Figure.

(** The model object [m]: each attribute the program asks for may be
    absent ([hasattr] / [getattr] with a default).  [history] refers to
    a table object. *)
Module Model.
Record t := mk {
    history : option positive;
    logistic_floor : option bool;
    uncertainty_samples : option Z }.
End Model.

(** The keyword arguments of [plot_forecast]. *)
Module Options.
Record t := mk {
  fig : option positive;
  uncertainty : bool;
  plot_cap : bool;
  xlabel : string;
  ylabel : string;
  width : Z;
  height : Z;
  include_legend : bool;
  colors : option positive }.

(** The defaults of the signature (lines 125-133). *)
Definition default : t :=
  mk None true true "ds" "y" 800 600 false None.
End Options.

(** ** Objects, heap, exceptions *)

Abbreviation loc := positive.

Inductive object :=
  | DataFrameObj (df : DataFrame)
  | DictObj (d : Palette)
  | FigureObj (f : Figure.t).

Abbreviation heap := (gmap loc object).

Inductive exn :=
  | KeyError (key : string)
  | TypeError
  | ValueError.

Inductive result (A : Type) :=
  | Return (a : A)
  | Raise (e : exn).
Arguments Return {A} a.
Arguments Raise {A} e.

(** A computation reads and writes the heap and returns or raises;
    the heap it leaves is kept in both cases. *)
Definition M (A : Type) : Type := heap → result A * heap.

Definition ret {A} (a : A) : M A := λ h, (Return a, h).

Definition raise {A} (e : exn) : M A := λ h, (Raise e, h).

Definition bind {A B} (c : M A) (k : A → M B) : M B := λ h,
  match c h with
  | (Return a, h') => k a h'
  | (Raise e, h') => (Raise e, h')
  end.

Notation "x <- c ;; k" := (bind c (λ x, k))
  (at level 100, c at next level, right associativity).
Notation "c ;; k" := (bind c (λ _, k))
  (at level 100, right associativity).

(** A new object gets a location not in use. *)
Definition alloc (o : object) : M loc := λ h,
  let l := fresh (dom h) in (Return l, <[l := o]> h).

(** ** The module's palette *)

(** The dict literal of lines 33-38. *)
Definition default_palette : Palette :=
  {[ "forecast" := "#0D47A1";
     "observed" := "#FF6F00";
     "cap" := "#000000";
     "uncertainty" := "rgba(0, 114, 178, 0.2)" ]}.

(** The module-level variable [DEFAULT_PALETTE] is bound to one dict
    object for the life of the module. *)
Definition DEFAULT_PALETTE : loc := 1%positive.

(** The heap once the module is imported. *)
Definition module_heap : heap := {[ DEFAULT_PALETTE := DictObj default_palette ]}.

(** ** The charting library's colour test

    Whether the charting library takes a string as a colour is decided
    by the library, not by the program: the development takes the test
    as it comes, so what is proved holds for the library's. *)
Class ColourTest := valid_color : string → bool.

(** A colour test for the sample runs: the hex notation ([#] and 3 or 6
    hex digits) and the functional notation ([rgb], [hsl], [hsv], with
    or without alpha, of 3 or 4 numbers), spaces ignored.  The library
    takes these, and the CSS colour names besides, which no sample run
    uses. *)
Definition one_of (chars : string) (a : ascii) : bool :=
  existsb (λ b, bool_decide (a = b)) (String.list_ascii_of_string chars).

Definition hex_colour (s : list ascii) : bool :=
  match s with
  | "#"%char :: digits =>
      forallb (one_of "0123456789abcdefABCDEF") digits
      && bool_decide (length digits = 3%nat ∨ length digits = 6%nat)
  | _ => false
  end.

Fixpoint split_on (sep : ascii) (s : list ascii) : list (list ascii) :=
  match s with
  | [] => [[]]
  | a :: s' =>
      if bool_decide (a = sep) then [] :: split_on sep s'
      else match split_on sep s' with
           | piece :: rest => (a :: piece) :: rest
           | [] => [[a]]
           end
  end.

Definition number_or_percent (s : list ascii) : bool :=
  let digits := match reverse s with
                | "%"%char :: r => r
                | r => r
                end in
  negb (bool_decide (digits = [])) && forallb (one_of "0123456789.") digits.

Definition functional_colour (s : list ascii) : bool :=
  existsb (λ name : string,
    let prefix := String.list_ascii_of_string name in
    bool_decide (take (length prefix) s = prefix)
    && match reverse (drop (length prefix) s) with
       | ")"%char :: body =>
           let parts := split_on ","%char (reverse body) in
           forallb number_or_percent parts
           && bool_decide (length parts = 3%nat ∨ length parts = 4%nat)
       | _ => false
       end)
    ["rgb("; "rgba("; "hsl("; "hsla("; "hsv("; "hsva("].

Definition hex_or_functional : ColourTest := λ c,
  let s := filter (λ a, a ≠ " "%char) (String.list_ascii_of_string c) in
  hex_colour s || functional_colour s.

(** ** Sample inputs *)

Module Sample.

(** A table with the required columns only. *)
Definition plain_table : DataFrame :=
  {[ "ds" := [Timestamp 1; Timestamp 2; Timestamp 3];
     "yhat" := [Number 1; Number 2; Number 3] ]}.

(** A table with every optional column. *)
Definition full_table : DataFrame :=
  {[ "ds" := [Timestamp 1; Timestamp 2; Timestamp 3];
     "yhat" := [Number 1; Number 2; Number 3];
     "yhat_lower" := [Number 0; Number 1; Number 2];
     "yhat_upper" := [Number 2; Number 3; Number 4];
     "cap" := [Number 10; Number 10; Number 10];
     "floor" := [Number (-1); Number (-1); Number (-1)] ]}.

Definition history_table : DataFrame :=
  {[ "ds" := [Timestamp 1; Timestamp 2];
     "y" := [Number 1; Number 3] ]}.

(** A figure as an earlier call with the default options leaves it:
    the legend is hidden. *)
Definition hidden_legend_figure : Figure.t :=
  Figure.mk []
    (Layout.mk None None None None None None None None (Some false)).

Definition plain : loc := 2%positive.
Definition full : loc := 3%positive.
Definition history : loc := 4%positive.
Definition empty_figure : loc := 5%positive.
Definition colors : loc := 6%positive.
Definition hidden_legend : loc := 7%positive.
Definition forecast_colour : loc := 8%positive.

Definition heap0 : heap :=
  <[forecast_colour := DictObj {[ "forecast" := "#ABCDEF" ]}]>
  (<[hidden_legend := FigureObj hidden_legend_figure]>
  (<[colors := DictObj {[ "forecast" := "#ABCDEF"; "grid" := "#EEEEEE" ]}]>
  (<[empty_figure := FigureObj (Figure.mk [] Layout.empty)]>
  (<[history := DataFrameObj history_table]>
  (<[full := DataFrameObj full_table]>
  (<[plain := DataFrameObj plain_table]> module_heap)))))).

(** A model with none of the optional attributes, and a fitted one. *)
Definition bare_model : Model.t := Model.mk None None None.
Definition sampling_model : Model.t := Model.mk None None (Some 1000).
Definition fitted_model : Model.t :=
  Model.mk (Some history) (Some true) (Some 1000).

Definition with_colors : Options.t :=
  Options.mk None true true "ds" "y" 800 600 false (Some colors).

Definition with_forecast_colour : Options.t :=
  Options.mk None true true "ds" "y" 800 600 false (Some forecast_colour).

Definition on_empty_figure : Options.t :=
  Options.mk (Some empty_figure) true true "ds" "y" 800 600 false None.

Definition with_legend_on_hidden : Options.t :=
  Options.mk (Some hidden_legend) true true "ds" "y" 800 600 true None.

End Sample.

(** More sample inputs: tables that lack a column, an empty [colors]. *)
Module Edge.

Definition no_yhat_table : DataFrame :=
  {[ "ds" := [Timestamp 1; Timestamp 2] ]}.

Definition half_band_table : DataFrame :=
  {[ "ds" := [Timestamp 1; Timestamp 2];
     "yhat" := [Number 1; Number 2];
     "yhat_upper" := [Number 2; Number 3] ]}.

Definition no_yhat : loc := 9%positive.
Definition half_band : loc := 10%positive.
Definition no_colors : loc := 11%positive.

Definition heap1 : heap :=
  <[no_colors := DictObj ∅]>
  (<[half_band := DataFrameObj half_band_table]>
  (<[no_yhat := DataFrameObj no_yhat_table]> Sample.heap0)).

Definition with_no_colors : Options.t :=
  Options.mk (Some Sample.empty_figure) true true "ds" "y" 800 600 false
    (Some no_colors).

(** A model whose history has no [y] column. *)
Definition model_without_y : Model.t := Model.mk (Some no_yhat) None None.

(** Values the library refuses: a string that is no colour for the
    band, a width below 10, a height below 10. *)
Definition no_colour : loc := 12%positive.

Definition heap2 : heap :=
  <[no_colour := DictObj {[ "uncertainty" := "no colour" ]}]> heap1.

Definition with_no_colour : Options.t :=
  Options.mk (Some Sample.empty_figure) true true "ds" "y" 800 600 false
    (Some no_colour).

Definition narrow : Options.t :=
  Options.mk (Some Sample.empty_figure) true true "ds" "y" 5 600 false None.

Definition flat : Options.t :=
  Options.mk (Some Sample.empty_figure) true true "ds" "y" 800 5 false None.

End Edge.

Create HintDb safe.

Section program.
Context `{colour_test : ColourTest}.

(** ** Library operations *)

(** [df.copy()] *)
Definition DataFrame_copy (df : loc) : M loc := λ h,
  match h !! df with
  | Some (DataFrameObj t) => alloc (DataFrameObj t) h
  | _ => (Raise TypeError, h)
  end.

(** [df[col]] *)
Definition DataFrame_getitem (df : loc) (col : string) : M Series := λ h,
  match h !! df with
  | Some (DataFrameObj t) =>
      match t !! col with
      | Some s => (Return s, h)
      | None => (Raise (KeyError col), h)
      end
  | _ => (Raise TypeError, h)
  end.

(** [col in df.columns] *)
Definition DataFrame_has_column (df : loc) (col : string) : M bool := λ h,
  match h !! df with
  | Some (DataFrameObj t) => (Return (bool_decide (is_Some (t !! col))), h)
  | _ => (Raise TypeError, h)
  end.

(** [d.copy()] *)
Definition dict_copy (d : loc) : M loc := λ h,
  match h !! d with
  | Some (DictObj p) => alloc (DictObj p) h
  | _ => (Raise TypeError, h)
  end.

(** [d[key]] *)
Definition dict_getitem (d : loc) (key : string) : M string := λ h,
  match h !! d with
  | Some (DictObj p) =>
      match p !! key with
      | Some v => (Return v, h)
      | None => (Raise (KeyError key), h)
      end
  | _ => (Raise TypeError, h)
  end.

(** The truth value of a dict: it is not empty. *)
Definition dict_bool (d : loc) : M bool := λ h,
  match h !! d with
  | Some (DictObj p) => (Return (negb (bool_decide (p = ∅))), h)
  | _ => (Raise TypeError, h)
  end.

(** [d.update(other)]: the entries of [other] are written into [d],
    in place. *)
Definition dict_update (d other : loc) : M unit := λ h,
  match h !! d, h !! other with
  | Some (DictObj p), Some (DictObj q) => (Return tt, <[d := DictObj (q ∪ p)]> h)
  | _, _ => (Raise TypeError, h)
  end.

(** [go.Scatter(...)]: the constructor checks the colours it is given
    ([line.color], [marker.color], [fillcolor]) and raises
    [ValueError] for one that is not a colour. *)
Definition colours_valid (trace : Scatter.t) : bool :=
  from_option valid_color true (Scatter.line trace ≫= Line.color)
  && from_option valid_color true (Scatter.marker trace ≫= Marker.color)
  && from_option valid_color true (Scatter.fillcolor trace).

Definition go_Scatter (trace : Scatter.t) : M Scatter.t :=
  if colours_valid trace then ret trace else raise ValueError.

(** [go.Figure()] *)
Definition go_Figure : M loc :=
  alloc (FigureObj (Figure.mk [] Layout.empty)).

(** [fig.add_trace(trace)]: the trace is appended, in place. *)
Definition add_trace (fig : loc) (trace : Scatter.t) : M unit := λ h,
  match h !! fig with
  | Some (FigureObj f) =>
      (Return tt,
       <[fig := FigureObj (Figure.mk (Figure.data f ++ [trace]) (Figure.layout f))]> h)
  | _ => (Raise TypeError, h)
  end.

(** A width or height in pixels is at least 10. *)
Definition valid_size (v : option Z) : bool :=
  from_option (λ n, 10 <=? n) true v.

(** [fig.update_layout(...)] with the given keyword arguments, in
    place.  The properties are set in the order they are passed, and a
    value that is not valid raises [ValueError] with the properties
    before it set: [width] comes first, then [height]; no later
    property of the program's calls can fail. *)
Definition update_layout (fig : loc) (kwargs : Layout.t) : M unit := λ h,
  match h !! fig with
  | Some (FigureObj f) =>
      if negb (valid_size (Layout.width kwargs)) then (Raise ValueError, h)
      else if negb (valid_size (Layout.height kwargs)) then
        (Raise ValueError,
         <[fig := FigureObj (Figure.mk (Figure.data f)
                               (Layout.update_width kwargs (Figure.layout f)))]> h)
      else
        (Return tt,
         <[fig := FigureObj (Figure.mk (Figure.data f)
                               (Layout.update kwargs (Figure.layout f)))]> h)
  | _ => (Raise TypeError, h)
  end.

(** ** The program *)

(** Lines 43-52. *)
Definition _add_forecast (fig fcst palette : loc) : M unit :=
  x <- DataFrame_getitem fcst "ds";;
  y <- DataFrame_getitem fcst "yhat";;
  color <- dict_getitem palette "forecast";;
  trace <- go_Scatter
    {| Scatter.x := x; Scatter.y := y;
       Scatter.mode := Some "lines";
       Scatter.line := Some (Line.mk (Some color) (Some 2) None);
       Scatter.marker := None;
       Scatter.name := Some "Forecast";
       Scatter.fill := None; Scatter.fillcolor := None;
       Scatter.hoverinfo := None; Scatter.showlegend := None |};;
  add_trace fig trace.

(** Lines 55-65; [hasattr(m, "history")] is the presence of the
    attribute. *)
Definition _add_observed (fig : loc) (m : Model.t) (palette : loc) : M unit :=
  match Model.history m with
  | Some history =>
      x <- DataFrame_getitem history "ds";;
      y <- DataFrame_getitem history "y";;
      color <- dict_getitem palette "observed";;
      trace <- go_Scatter
        {| Scatter.x := x; Scatter.y := y;
           Scatter.mode := Some "markers";
           Scatter.line := None;
           Scatter.marker := Some (Marker.mk (Some color) (Some 4) (Some 1));
           Scatter.name := Some "Observed data points";
           Scatter.fill := None; Scatter.fillcolor := None;
           Scatter.hoverinfo := None; Scatter.showlegend := None |};;
      add_trace fig trace
  | None => ret tt
  end.

(** Lines 68-88; [getattr(m, "logistic_floor", False) and ...] looks at
    the columns only when the attribute is true. *)
Definition _add_capacity (fig : loc) (m : Model.t) (fcst palette : loc) : M unit :=
  has_cap <- DataFrame_has_column fcst "cap";;
  (if has_cap : bool then
     x <- DataFrame_getitem fcst "ds";;
     y <- DataFrame_getitem fcst "cap";;
     color <- dict_getitem palette "cap";;
     trace <- go_Scatter
       {| Scatter.x := x; Scatter.y := y;
          Scatter.mode := Some "lines";
          Scatter.line := Some (Line.mk (Some color) None (Some "dash"));
          Scatter.marker := None;
          Scatter.name := Some "Maximum capacity";
          Scatter.fill := None; Scatter.fillcolor := None;
          Scatter.hoverinfo := None; Scatter.showlegend := None |};;
     add_trace fig trace
   else ret tt);;
  has_floor <- (if default false (Model.logistic_floor m)
                then DataFrame_has_column fcst "floor"
                else ret false);;
  if has_floor : bool then
    x <- DataFrame_getitem fcst "ds";;
    y <- DataFrame_getitem fcst "floor";;
    color <- dict_getitem palette "cap";;
    trace <- go_Scatter
      {| Scatter.x := x; Scatter.y := y;
         Scatter.mode := Some "lines";
         Scatter.line := Some (Line.mk (Some color) None (Some "dash"));
         Scatter.marker := None;
         Scatter.name := Some "Minimum capacity";
         Scatter.fill := None; Scatter.fillcolor := None;
         Scatter.hoverinfo := None; Scatter.showlegend := None |};;
    add_trace fig trace
  else ret tt.

(** Lines 91-116. *)
Definition _add_uncertainty (fig : loc) (m : Model.t) (fcst palette : loc) : M unit :=
  if default 0 (Model.uncertainty_samples m) >? 0 then
    x <- DataFrame_getitem fcst "ds";;
    y <- DataFrame_getitem fcst "yhat_upper";;
    trace <- go_Scatter
      {| Scatter.x := x; Scatter.y := y;
         Scatter.mode := Some "lines";
         Scatter.line := Some (Line.mk None (Some 0) None);
         Scatter.marker := None;
         Scatter.name := None;
         Scatter.fill := None; Scatter.fillcolor := None;
         Scatter.hoverinfo := Some "skip";
         Scatter.showlegend := Some false |};;
    add_trace fig trace;;
    x <- DataFrame_getitem fcst "ds";;
    y <- DataFrame_getitem fcst "yhat_lower";;
    fillcolor <- dict_getitem palette "uncertainty";;
    trace <- go_Scatter
      {| Scatter.x := x; Scatter.y := y;
         Scatter.mode := Some "lines";
         Scatter.line := Some (Line.mk None (Some 0) None);
         Scatter.marker := None;
         Scatter.name := Some "Uncertainty interval";
         Scatter.fill := Some "tonexty";
         Scatter.fillcolor := Some fillcolor;
         Scatter.hoverinfo := Some "skip";
         Scatter.showlegend := None |};;
    add_trace fig trace
  else ret tt.

(** Lines 121-205.  [if colors:] is false for [None] and for an empty
    dict; a figure object is true, so [fig or go.Figure()] is the
    caller's figure when one is passed. *)
Definition plot_forecast (m : Model.t) (fcst : loc) (o : Options.t) : M loc :=
  fcst <- DataFrame_copy fcst;;
  palette <- dict_copy DEFAULT_PALETTE;;
  match Options.colors o with
  | Some colors =>
      nonempty <- dict_bool colors;;
      if nonempty : bool then dict_update palette colors else ret tt
  | None => ret tt
  end;;
  fig <- match Options.fig o with
         | Some fig => ret fig
         | None => go_Figure
         end;;
  _add_forecast fig fcst palette;;
  _add_observed fig m palette;;
  (if Options.plot_cap o then _add_capacity fig m fcst palette else ret tt);;
  (if Options.uncertainty o then _add_uncertainty fig m fcst palette else ret tt);;
  update_layout fig
    {| Layout.width := Some (Options.width o);
       Layout.height := Some (Options.height o);
       Layout.margin := Some (Margin.mk (Some 60) (Some 40) (Some 60) (Some 60));
       Layout.title := Some (Title.mk (Some "") (Some 0.5%float));
       Layout.xaxis := Some (Axis.mk (Some (Options.xlabel o)));
       Layout.yaxis := Some (Axis.mk (Some (Options.ylabel o)));
       Layout.hovermode := Some "x unified";
       Layout.legend := None;
       Layout.showlegend := None |};;
  (if Options.include_legend o then
     update_layout fig
       {| Layout.width := None; Layout.height := None; Layout.margin := None;
          Layout.title := None; Layout.xaxis := None; Layout.yaxis := None;
          Layout.hovermode := None;
          Layout.legend := Some (Legend.mk (Some "h") (Some "bottom") (Some 1.02%float));
          Layout.showlegend := None |}
   else
     update_layout fig
       {| Layout.width := None; Layout.height := None; Layout.margin := None;
          Layout.title := None; Layout.xaxis := None; Layout.yaxis := None;
          Layout.hovermode := None; Layout.legend := None;
          Layout.showlegend := Some false |});;
  ret fig.

(** ** The vocabulary of the statements *)

(** [keeps h0 h]: every object of [h0] is still in [h]; tables and
    dicts are unchanged, a figure is still a figure. *)
Definition keeps (h0 h : heap) : Prop :=
  ∀ l ob, h0 !! l = Some ob →
    match ob with
    | FigureObj _ => ∃ f, h !! l = Some (FigureObj f)
    | _ => h !! l = Some ob
    end.

(** [c] keeps the objects of [h0] from any heap that does. *)
Definition safe {A} (h0 : heap) (c : M A) : Prop :=
  ∀ h, keeps h0 h → keeps h0 (c h).2.

(** [c] moreover returns only locations that [h0] does not use. *)
Definition safe_new (h0 : heap) (c : M loc) : Prop :=
  ∀ h, keeps h0 h →
    keeps h0 (c h).2 ∧ ∀ l, (c h).1 = Return l → h0 !! l = None.

(** Reading the inputs of a call off the heap. *)
Definition table_at (h : heap) (l : loc) : option DataFrame :=
  match h !! l with Some (DataFrameObj t) => Some t | _ => None end.

Definition dict_at (h : heap) (l : loc) : option Palette :=
  match h !! l with Some (DictObj d) => Some d | _ => None end.

Definition figure_at (h : heap) (l : loc) : option Figure.t :=
  match h !! l with Some (FigureObj f) => Some f | _ => None end.

Definition column (t : DataFrame) (col : string) : Series := default [] (t !! col).

Definition has_column (t : DataFrame) (col : string) : bool :=
  bool_decide (is_Some (t !! col)).

(** The traces of the program, by the [go.Scatter] call that makes them. *)
Definition forecast_trace (t : DataFrame) (pal : Palette) : Scatter.t :=
  {| Scatter.x := column t "ds"; Scatter.y := column t "yhat";
     Scatter.mode := Some "lines";
     Scatter.line := Some (Line.mk (pal !! "forecast") (Some 2) None);
     Scatter.marker := None;
     Scatter.name := Some "Forecast";
     Scatter.fill := None; Scatter.fillcolor := None;
     Scatter.hoverinfo := None; Scatter.showlegend := None |}.

Definition observed_trace (hist : DataFrame) (pal : Palette) : Scatter.t :=
  {| Scatter.x := column hist "ds"; Scatter.y := column hist "y";
     Scatter.mode := Some "markers";
     Scatter.line := None;
     Scatter.marker := Some (Marker.mk (pal !! "observed") (Some 4) (Some 1));
     Scatter.name := Some "Observed data points";
     Scatter.fill := None; Scatter.fillcolor := None;
     Scatter.hoverinfo := None; Scatter.showlegend := None |}.

Definition capacity_trace (t : DataFrame) (pal : Palette) (col name : string) : Scatter.t :=
  {| Scatter.x := column t "ds"; Scatter.y := column t col;
     Scatter.mode := Some "lines";
     Scatter.line := Some (Line.mk (pal !! "cap") None (Some "dash"));
     Scatter.marker := None;
     Scatter.name := Some name;
     Scatter.fill := None; Scatter.fillcolor := None;
     Scatter.hoverinfo := None; Scatter.showlegend := None |}.

Definition upper_trace (t : DataFrame) : Scatter.t :=
  {| Scatter.x := column t "ds"; Scatter.y := column t "yhat_upper";
     Scatter.mode := Some "lines";
     Scatter.line := Some (Line.mk None (Some 0) None);
     Scatter.marker := None;
     Scatter.name := None;
     Scatter.fill := None; Scatter.fillcolor := None;
     Scatter.hoverinfo := Some "skip";
     Scatter.showlegend := Some false |}.

Definition lower_trace (t : DataFrame) (pal : Palette) : Scatter.t :=
  {| Scatter.x := column t "ds"; Scatter.y := column t "yhat_lower";
     Scatter.mode := Some "lines";
     Scatter.line := Some (Line.mk None (Some 0) None);
     Scatter.marker := None;
     Scatter.name := Some "Uncertainty interval";
     Scatter.fill := Some "tonexty";
     Scatter.fillcolor := pal !! "uncertainty";
     Scatter.hoverinfo := Some "skip";
     Scatter.showlegend := None |}.

(** [f] with the traces [ts] appended. *)
Definition push (f : Figure.t) (ts : list Scatter.t) : Figure.t :=
  Figure.mk (Figure.data f ++ ts) (Figure.layout f).

(** The traces each step adds.  [hist] is the table that [m.history]
    refers to, when the attribute exists. *)
Definition observed_part (pal : Palette) (hist : option DataFrame)
  : list Scatter.t :=
  match hist with
  | Some th => [observed_trace th pal]
  | None => []
  end.

Definition cap_part (t : DataFrame) (pal : Palette) : list Scatter.t :=
  if has_column t "cap"
  then [capacity_trace t pal "cap" "Maximum capacity"] else [].

Definition floor_part (t : DataFrame) (pal : Palette) (m : Model.t)
  : list Scatter.t :=
  if default false (Model.logistic_floor m) && has_column t "floor"
  then [capacity_trace t pal "floor" "Minimum capacity"] else [].

(** The band is wanted by the model when its sample count is positive. *)
Definition has_samples (m : Model.t) : bool :=
  default 0 (Model.uncertainty_samples m) >? 0.

(** The traces that the band step adds, and the exception that stops it. *)
Definition band_part (t : DataFrame) (pal : Palette) (wanted : bool)
  : list Scatter.t :=
  if wanted then
    match t !! "yhat_upper", t !! "yhat_lower" with
    | None, _ => []
    | Some _, None => [upper_trace t]
    | Some _, Some _ => [upper_trace t; lower_trace t pal]
    end
  else [].

Definition band_error (t : DataFrame) (wanted : bool) : option exn :=
  if wanted then
    match t !! "yhat_upper", t !! "yhat_lower" with
    | None, _ => Some (KeyError "yhat_upper")
    | Some _, None => Some (KeyError "yhat_lower")
    | Some _, Some _ => None
    end
  else None.

Definition outcome {A} (err : option exn) (a : A) : result A :=
  match err with
  | None => Return a
  | Some e => Raise e
  end.

(** [l] is a table that has the columns [cols]. *)
Definition is_table_with (h : heap) (l : loc) (cols : list string) : bool :=
  match table_at h l with
  | Some t => forallb (has_column t) cols
  | None => false
  end.

Definition palette_ok (h : heap) : bool :=
  bool_decide (dict_at h DEFAULT_PALETTE = Some default_palette).

Definition history_ok (h : heap) (m : Model.t) : bool :=
  from_option (λ l, is_table_with h l ["ds"; "y"]) true (Model.history m).

Definition fig_ok (h : heap) (o : Options.t) : bool :=
  from_option (λ l, bool_decide (is_Some (figure_at h l))) true (Options.fig o).

Definition colors_ok (h : heap) (o : Options.t) : bool :=
  from_option (λ l, bool_decide (is_Some (dict_at h l))) true (Options.colors o).

(** The arguments of a call are well formed in [h]: the module's
    palette is as the module made it, [fcst] is a table with the
    required columns, [m.history] (if any) is a table with [ds] and [y],
    [fig] (if any) is a figure and [colors] (if any) is a dict. *)
Definition well_formed (h : heap) (m : Model.t) (fcst : loc) (o : Options.t) : bool :=
  palette_ok h
  && is_table_with h fcst ["ds"; "yhat"]
  && history_ok h m
  && fig_ok h o
  && colors_ok h o.

(** The caller's table, overrides and figure, read off the heap. *)
Definition table_of (h : heap) (fcst : loc) : DataFrame :=
  default ∅ (table_at h fcst).

Definition overrides (h : heap) (o : Options.t) : Palette :=
  default ∅ (Options.colors o ≫= dict_at h).

Definition effective_palette (h : heap) (o : Options.t) : Palette :=
  overrides h o ∪ default_palette.

(** The values of a call are valid for the charting library: the
    colours of the four roles in the effective palette are colours,
    and width and height are at least 10. *)
Definition palette_valid (h : heap) (o : Options.t) : bool :=
  forallb (λ role, from_option valid_color false (effective_palette h o !! role))
    ["forecast"; "observed"; "cap"; "uncertainty"].

Definition sizes_valid (o : Options.t) : bool :=
  (10 <=? Options.width o) && (10 <=? Options.height o).

Definition valid_values (h : heap) (o : Options.t) : bool :=
  palette_valid h o && sizes_valid o.

Definition initial_figure (h : heap) (o : Options.t) : Figure.t :=
  default (Figure.mk [] Layout.empty) (Options.fig o ≫= figure_at h).

(** The band is wanted: line 185 and line 92. *)
Definition band_wanted (m : Model.t) (o : Options.t) : bool :=
  Options.uncertainty o && has_samples m.

(** The traces a call appends, in order. *)
Definition added_traces (h : heap) (m : Model.t) (fcst : loc) (o : Options.t)
  : list Scatter.t :=
  let t := table_of h fcst in
  let pal := effective_palette h o in
  [forecast_trace t pal]
  ++ observed_part pal (Model.history m ≫= table_at h)
  ++ (if Options.plot_cap o then cap_part t pal ++ floor_part t pal m else [])
  ++ band_part t pal (band_wanted m o).

Definition call_error (h : heap) (m : Model.t) (fcst : loc) (o : Options.t)
  : option exn :=
  band_error (table_of h fcst) (band_wanted m o).

(** The keyword arguments of the two [update_layout] calls. *)
Definition layout_kwargs (o : Options.t) : Layout.t :=
  {| Layout.width := Some (Options.width o);
     Layout.height := Some (Options.height o);
     Layout.margin := Some (Margin.mk (Some 60) (Some 40) (Some 60) (Some 60));
     Layout.title := Some (Title.mk (Some "") (Some 0.5%float));
     Layout.xaxis := Some (Axis.mk (Some (Options.xlabel o)));
     Layout.yaxis := Some (Axis.mk (Some (Options.ylabel o)));
     Layout.hovermode := Some "x unified";
     Layout.legend := None;
     Layout.showlegend := None |}.

Definition legend_kwargs (o : Options.t) : Layout.t :=
  if Options.include_legend o then
    {| Layout.width := None; Layout.height := None; Layout.margin := None;
       Layout.title := None; Layout.xaxis := None; Layout.yaxis := None;
       Layout.hovermode := None;
       Layout.legend := Some (Legend.mk (Some "h") (Some "bottom") (Some 1.02%float));
       Layout.showlegend := None |}
  else
    {| Layout.width := None; Layout.height := None; Layout.margin := None;
       Layout.title := None; Layout.xaxis := None; Layout.yaxis := None;
       Layout.hovermode := None; Layout.legend := None;
       Layout.showlegend := Some false |}.

(** The figure as the call leaves it: the traces appended, and the
    layout updated when the call got that far. *)
Definition final_figure (h : heap) (m : Model.t) (fcst : loc) (o : Options.t)
  : Figure.t :=
  let f := push (initial_figure h o) (added_traces h m fcst o) in
  match call_error h m fcst o with
  | None =>
      Figure.mk (Figure.data f)
        (Layout.update (legend_kwargs o)
           (Layout.update (layout_kwargs o) (Figure.layout f)))
  | Some _ => f
  end.

(** The objects a call creates: the table copy, the palette, and the
    figure when none is passed. *)
Definition copy_loc (h : heap) : loc := fresh (dom h).

Definition with_copy (h : heap) (fcst : loc) : heap :=
  <[copy_loc h := DataFrameObj (table_of h fcst)]> h.

Definition palette_loc (h : heap) (fcst : loc) : loc :=
  fresh (dom (with_copy h fcst)).

Definition with_palette (h : heap) (fcst : loc) (o : Options.t) : heap :=
  <[palette_loc h fcst := DictObj (effective_palette h o)]> (with_copy h fcst).

Definition figure_loc (h : heap) (fcst : loc) (o : Options.t) : loc :=
  default (fresh (dom (with_palette h fcst o))) (Options.fig o).

(** What [well_formed] says, as facts about the heap. *)
Record well_formed_facts (h : heap) (m : Model.t) (fcst : loc) (o : Options.t)
  : Prop := {
  wf_palette : h !! DEFAULT_PALETTE = Some (DictObj default_palette);
  wf_fcst : h !! fcst = Some (DataFrameObj (table_of h fcst));
  wf_ds : is_Some (table_of h fcst !! "ds");
  wf_yhat : is_Some (table_of h fcst !! "yhat");
  wf_history : ∀ l, Model.history m = Some l →
    ∃ th, h !! l = Some (DataFrameObj th)
          ∧ is_Some (th !! "ds") ∧ is_Some (th !! "y");
  wf_fig : ∀ l, Options.fig o = Some l →
    h !! l = Some (FigureObj (initial_figure h o));
  wf_colors : ∀ l, Options.colors o = Some l →
    h !! l = Some (DictObj (overrides h o)) }.

(** The figure a call returns. *)
Definition returned_figure (out : result loc * heap) : option Figure.t :=
  match out.1 with
  | Return l => figure_at out.2 l
  | Raise _ => None
  end.

(** The figure the caller can look at once the call is over: the one
    returned or, when the call raised, the one that was passed in. *)
Definition resulting_figure (o : Options.t) (out : result loc * heap)
  : option Figure.t :=
  match out.1 with
  | Return l => figure_at out.2 l
  | Raise _ => Options.fig o ≫= figure_at out.2
  end.

(** The band's columns are there when the band is wanted. *)
Definition band_columns_ok (h : heap) (m : Model.t) (fcst : loc) (o : Options.t)
  : bool :=
  if band_wanted m o
  then has_column (table_of h fcst) "yhat_upper"
       && has_column (table_of h fcst) "yhat_lower"
  else true.

(** The two traces of the band, as the figure shows them: the lower
    bound carries the band's label, the upper bound carries none. *)
Definition is_band_trace (tr : Scatter.t) : bool :=
  bool_decide (Scatter.name tr = Some "Uncertainty interval")
  || bool_decide (Scatter.name tr = None).

(** The traces before the band are not band traces. *)
Definition before_band (h : heap) (m : Model.t) (fcst : loc) (o : Options.t)
  : list Scatter.t :=
  let t := table_of h fcst in
  let pal := effective_palette h o in
  [forecast_trace t pal]
  ++ observed_part pal (Model.history m ≫= table_at h)
  ++ (if Options.plot_cap o then cap_part t pal ++ floor_part t pal m else []).

Definition roles : list string := ["forecast"; "observed"; "cap"; "uncertainty"].

(** ** What a call may change *)

(** [h] has every object of [h0] as it was, except possibly the one
    at [x]. *)
Definition same_but (x : option loc) (h0 h : heap) : Prop :=
  ∀ l ob, h0 !! l = Some ob → x ≠ Some l → h !! l = Some ob.

(** [c] changes no object of [h0] other than the one at [x]. *)
Definition framed {A} (x : option loc) (h0 : heap) (c : M A) : Prop :=
  ∀ h, keeps h0 h → same_but x h0 h → same_but x h0 (c h).2.

(** The labels of the traces a call adds, in the order of lines
    179-186. *)
Definition expected_labels (h : heap) (m : Model.t) (fcst : loc) (o : Options.t)
  : list (option string) :=
  let t := table_of h fcst in
  [Some "Forecast"]
  ++ (if Model.history m is Some _ then [Some "Observed data points"] else [])
  ++ (if Options.plot_cap o && has_column t "cap"
      then [Some "Maximum capacity"] else [])
  ++ (if Options.plot_cap o && default false (Model.logistic_floor m)
         && has_column t "floor"
      then [Some "Minimum capacity"] else [])
  ++ (if band_wanted m o then [None; Some "Uncertainty interval"] else []).

(** The options [o] with [colors] left out. *)
Definition without_colors (o : Options.t) : Options.t :=
  {| Options.fig := Options.fig o;
     Options.uncertainty := Options.uncertainty o;
     Options.plot_cap := Options.plot_cap o;
     Options.xlabel := Options.xlabel o;
     Options.ylabel := Options.ylabel o;
     Options.width := Options.width o;
     Options.height := Options.height o;
     Options.include_legend := Options.include_legend o;
     Options.colors := None |}.

(** ** Running computations *)

Lemma bind_Return {A B} (c : M A) (k : A → M B) h a h' :
  c h = (Return a, h') → bind c k h = k a h'.
Proof. intros E. unfold bind. by rewrite E. Qed.

Lemma bind_Raise {A B} (c : M A) (k : A → M B) h e h' :
  c h = (Raise e, h') → bind c k h = (Raise e, h').
Proof. intros E. unfold bind. by rewrite E. Qed.

(** ** What a call leaves alone *)

Lemma keeps_refl h : keeps h h.
Proof. intros l [] E; eauto. Qed.

Lemma keeps_is_Some h0 h l : keeps h0 h → is_Some (h0 !! l) → is_Some (h !! l).
Proof.
  intros K [ob E]. specialize (K l ob E).
  destruct ob; [eauto | eauto | destruct K; eauto].
Qed.

Lemma keeps_fresh h0 h : keeps h0 h → h0 !! fresh (dom h) = None.
Proof.
  intros K. destruct (h0 !! fresh (dom h)) eqn:E; [|done].
  assert (is_Some (h !! fresh (dom h))) as S
    by (eapply keeps_is_Some; eauto).
  apply elem_of_dom in S. by apply is_fresh in S.
Qed.

Lemma keeps_insert_new h0 h l ob :
  keeps h0 h → h0 !! l = None → keeps h0 (<[l := ob]> h).
Proof.
  intros K N l' ob' E.
  assert (l ≠ l') by congruence.
  specialize (K l' ob' E). destruct ob'; rewrite lookup_insert_ne; done.
Qed.

Lemma keeps_insert_figure h0 h l f f' :
  keeps h0 h → h !! l = Some (FigureObj f) → keeps h0 (<[l := FigureObj f']> h).
Proof.
  intros K F l' ob' E. specialize (K l' ob' E).
  destruct (decide (l = l')) as [->|].
  - destruct ob'; rewrite ?lookup_insert_eq; [congruence | congruence | eauto].
  - destruct ob'; rewrite lookup_insert_ne; done.
Qed.

Section safety.
Context (h0 : heap).

Lemma safe_ret {A} (a : A) : safe h0 (ret a).
Proof. by intros h K. Qed.

Lemma safe_bind {A B} (c : M A) (k : A → M B) :
  safe h0 c → (∀ a, safe h0 (k a)) → safe h0 (bind c k).
Proof.
  intros Sc Sk h K. specialize (Sc h K). unfold bind.
  destruct (c h) as [[a|e] h1]; simpl in *; [by apply Sk | done].
Qed.

Lemma safe_bind_new {B} (c : M loc) (k : loc → M B) :
  safe_new h0 c → (∀ l, h0 !! l = None → safe h0 (k l)) → safe h0 (bind c k).
Proof.
  intros Sc Sk h K. destruct (Sc h K) as [K1 N]. unfold bind.
  destruct (c h) as [[a|e] h1]; simpl in *; [|done].
  apply Sk; auto.
Qed.

Lemma safe_new_safe (c : M loc) : safe_new h0 c → safe h0 c.
Proof. intros S h K. by apply S. Qed.

Lemma safe_new_alloc ob : safe_new h0 (alloc ob).
Proof.
  intros h K. pose proof (keeps_fresh _ _ K) as N. split; simpl.
  - by apply keeps_insert_new.
  - by intros l [= <-].
Qed.

Lemma safe_new_DataFrame_copy df : safe_new h0 (DataFrame_copy df).
Proof.
  intros h K. unfold DataFrame_copy.
  destruct (h !! df) as [[]|]; try (split; [done | by intros ? [=]]).
  by apply safe_new_alloc.
Qed.

Lemma safe_new_dict_copy d : safe_new h0 (dict_copy d).
Proof.
  intros h K. unfold dict_copy.
  destruct (h !! d) as [[]|]; try (split; [done | by intros ? [=]]).
  by apply safe_new_alloc.
Qed.

Lemma safe_new_go_Figure : safe_new h0 go_Figure.
Proof. apply safe_new_alloc. Qed.

Lemma safe_DataFrame_getitem df col : safe h0 (DataFrame_getitem df col).
Proof.
  intros h K. unfold DataFrame_getitem.
  destruct (h !! df) as [[t| |]|]; try done. by destruct (t !! col).
Qed.

Lemma safe_DataFrame_has_column df col : safe h0 (DataFrame_has_column df col).
Proof.
  intros h K. unfold DataFrame_has_column. by destruct (h !! df) as [[]|].
Qed.

Lemma safe_dict_getitem d key : safe h0 (dict_getitem d key).
Proof.
  intros h K. unfold dict_getitem.
  destruct (h !! d) as [[|p|]|]; try done. by destruct (p !! key).
Qed.

Lemma safe_dict_bool d : safe h0 (dict_bool d).
Proof. intros h K. unfold dict_bool. by destruct (h !! d) as [[]|]. Qed.

(** Writing into a dict is safe when the dict is not one of [h0]. *)
Lemma safe_dict_update d other : h0 !! d = None → safe h0 (dict_update d other).
Proof.
  intros N h K. unfold dict_update.
  destruct (h !! d) as [[]|]; try done.
  destruct (h !! other) as [[]|]; try done.
  simpl. by apply keeps_insert_new.
Qed.

Lemma safe_add_trace fig trace : safe h0 (add_trace fig trace).
Proof.
  intros h K. unfold add_trace.
  destruct (h !! fig) as [[]|] eqn:E; try done.
  simpl. by eapply keeps_insert_figure.
Qed.

Lemma safe_update_layout fig kwargs : safe h0 (update_layout fig kwargs).
Proof.
  intros h K. unfold update_layout.
  destruct (h !! fig) as [[]|] eqn:E; try done.
  destruct (valid_size (Layout.width kwargs)); [|done].
  destruct (valid_size (Layout.height kwargs)); simpl;
    by eapply keeps_insert_figure.
Qed.

Lemma safe_go_Scatter trace : safe h0 (go_Scatter trace).
Proof. intros h K. unfold go_Scatter. by destruct (colours_valid trace). Qed.

#[local] Hint Resolve safe_ret safe_DataFrame_getitem safe_DataFrame_has_column
  safe_dict_getitem safe_dict_bool safe_add_trace safe_update_layout
  safe_go_Scatter : safe.

Ltac safe_steps :=
  repeat first
    [ apply safe_bind; [|intros ?]
    | match goal with |- safe _ (if ?b then _ else _) => destruct b end
    | solve [auto with safe] ].

Lemma safe__add_forecast fig fcst palette : safe h0 (_add_forecast fig fcst palette).
Proof. unfold _add_forecast. safe_steps. Qed.

Lemma safe__add_observed fig m palette : safe h0 (_add_observed fig m palette).
Proof. unfold _add_observed. destruct (Model.history m); safe_steps. Qed.

Lemma safe__add_capacity fig m fcst palette : safe h0 (_add_capacity fig m fcst palette).
Proof. unfold _add_capacity. safe_steps. Qed.

Lemma safe__add_uncertainty fig m fcst palette :
  safe h0 (_add_uncertainty fig m fcst palette).
Proof. unfold _add_uncertainty. safe_steps. Qed.

Lemma safe_plot_forecast m fcst o : safe h0 (plot_forecast m fcst o).
Proof.
  unfold plot_forecast.
  apply safe_bind_new; [apply safe_new_DataFrame_copy | intros fcst' _].
  apply safe_bind_new; [apply safe_new_dict_copy | intros palette N].
  apply safe_bind; [|intros _].
  { destruct (Options.colors o); [|apply safe_ret].
    apply safe_bind; [apply safe_dict_bool | intros []];
      [by apply safe_dict_update | apply safe_ret]. }
  apply safe_bind; [|intros fig].
  { destruct (Options.fig o);
      [apply safe_ret | apply safe_new_safe, safe_new_go_Figure]. }
  pose proof (safe__add_forecast fig fcst' palette).
  pose proof (safe__add_observed fig m palette).
  pose proof (safe__add_capacity fig m fcst' palette).
  pose proof (safe__add_uncertainty fig m fcst' palette).
  safe_steps.
Qed.

End safety.

(** ** What a call builds *)

Lemma push_nil f : push f [] = f.
Proof. destruct f. unfold push. simpl. by rewrite app_nil_r. Qed.

Lemma push_push f ts us : push (push f ts) us = push f (ts ++ us).
Proof. unfold push. simpl. by rewrite app_assoc. Qed.

(** The steps of the program on a heap [h0] that holds the table copy
    and the palette, with the figure [f] at [fig]. *)
Section steps.
Context (h0 : heap) (fig fcst palette : loc) (t : DataFrame) (pal : Palette).
Hypothesis Hfcst : h0 !! fcst = Some (DataFrameObj t).
Hypothesis Hpal : h0 !! palette = Some (DictObj pal).
Hypothesis Hff : fig ≠ fcst.
Hypothesis Hfp : fig ≠ palette.

Notation "'at_fig' f" := (<[fig := FigureObj f]> h0) (at level 10).

Lemma step_add_trace f trace :
  add_trace fig trace (at_fig f) = (Return tt, at_fig (push f [trace])).
Proof. unfold add_trace. by rewrite lookup_insert_eq, insert_insert_eq. Qed.

Lemma step_update_layout f kwargs :
  valid_size (Layout.width kwargs) = true →
  valid_size (Layout.height kwargs) = true →
  update_layout fig kwargs (at_fig f)
  = (Return tt, at_fig (Figure.mk (Figure.data f) (Layout.update kwargs (Figure.layout f)))).
Proof.
  intros Vw Vh. unfold update_layout.
  rewrite lookup_insert_eq, Vw, Vh. simpl. by rewrite insert_insert_eq.
Qed.

Lemma step_go_Scatter h trace :
  colours_valid trace = true → go_Scatter trace h = (Return trace, h).
Proof. intros V. unfold go_Scatter. by rewrite V. Qed.

Lemma step_getitem f l (tl : DataFrame) col s :
  fig ≠ l → h0 !! l = Some (DataFrameObj tl) → tl !! col = Some s →
  DataFrame_getitem l col (at_fig f) = (Return (column tl col), at_fig f).
Proof.
  intros N E C. unfold DataFrame_getitem, column.
  by rewrite lookup_insert_ne, E, C.
Qed.

Lemma step_getitem_missing f col :
  t !! col = None →
  DataFrame_getitem fcst col (at_fig f) = (Raise (KeyError col), at_fig f).
Proof.
  intros C. unfold DataFrame_getitem. by rewrite lookup_insert_ne, Hfcst, C.
Qed.

Lemma step_has_column f col :
  DataFrame_has_column fcst col (at_fig f) = (Return (has_column t col), at_fig f).
Proof. unfold DataFrame_has_column. by rewrite lookup_insert_ne, Hfcst. Qed.

Lemma step_dict_getitem f key c :
  pal !! key = Some c →
  dict_getitem palette key (at_fig f) = (Return c, at_fig f).
Proof. intros C. unfold dict_getitem. by rewrite lookup_insert_ne, Hpal, C. Qed.

Hypothesis Hds : is_Some (t !! "ds").
Hypothesis Hforecast : is_Some (pal !! "forecast").
Hypothesis Hobserved : is_Some (pal !! "observed").
Hypothesis Hcap : is_Some (pal !! "cap").
Hypothesis Huncertainty : is_Some (pal !! "uncertainty").
Hypothesis Vforecast : ∀ c, pal !! "forecast" = Some c → valid_color c = true.
Hypothesis Vobserved : ∀ c, pal !! "observed" = Some c → valid_color c = true.
Hypothesis Vcap : ∀ c, pal !! "cap" = Some c → valid_color c = true.
Hypothesis Vuncertainty : ∀ c, pal !! "uncertainty" = Some c → valid_color c = true.

Ltac step_with lem :=
  erewrite bind_Return by (eapply lem; eauto).

(** The constructor accepts a trace whose one colour is [c]. *)
Ltac step_go_Scatter V :=
  erewrite bind_Return
    by (apply step_go_Scatter; unfold colours_valid; simpl; by rewrite ?V).

Lemma run__add_forecast f :
  is_Some (t !! "yhat") →
  _add_forecast fig fcst palette (at_fig f)
  = (Return tt, at_fig (push f [forecast_trace t pal])).
Proof.
  destruct Hds as [ds Eds], Hforecast as [c Ec]. intros [yhat Ey].
  pose proof (Vforecast c Ec) as Vc.
  unfold _add_forecast, forecast_trace.
  step_with step_getitem. step_with step_getitem. step_with step_dict_getitem.
  step_go_Scatter Vc.
  by rewrite step_add_trace, Ec.
Qed.

Lemma run__add_observed f m :
  (∀ l, Model.history m = Some l →
     fig ≠ l ∧ ∃ th, h0 !! l = Some (DataFrameObj th)
                     ∧ is_Some (th !! "ds") ∧ is_Some (th !! "y")) →
  _add_observed fig m palette (at_fig f)
  = (Return tt, at_fig (push f (observed_part pal (Model.history m ≫= table_at h0)))).
Proof.
  intros Hh. unfold _add_observed.
  destruct (Model.history m) as [l|]; simpl.
  - destruct (Hh l eq_refl) as (N & th & E & [x Ex] & [y Ey]).
    destruct Hobserved as [c Ec]. pose proof (Vobserved c Ec) as Vc.
    unfold table_at. rewrite E. simpl. unfold observed_trace.
    step_with step_getitem. step_with step_getitem. step_with step_dict_getitem.
    step_go_Scatter Vc.
    by rewrite step_add_trace, Ec.
  - by rewrite push_nil.
Qed.

Lemma has_column_true col : has_column t col = true → is_Some (t !! col).
Proof. unfold has_column. apply bool_decide_eq_true. Qed.

Lemma has_column_false col : has_column t col = false → t !! col = None.
Proof.
  unfold has_column. intros E%bool_decide_eq_false.
  by apply eq_None_not_Some.
Qed.

Lemma run__add_capacity f m :
  _add_capacity fig m fcst palette (at_fig f)
  = (Return tt, at_fig (push f (cap_part t pal ++ floor_part t pal m))).
Proof.
  destruct Hds as [ds Eds], Hcap as [c Ec]. pose proof (Vcap c Ec) as Vc.
  unfold _add_capacity, cap_part, floor_part.
  step_with step_has_column.
  assert (∀ f col name, is_Some (t !! col) →
    (x <- DataFrame_getitem fcst "ds";;
     y <- DataFrame_getitem fcst col;;
     color <- dict_getitem palette "cap";;
     trace <- go_Scatter
       {| Scatter.x := x; Scatter.y := y;
          Scatter.mode := Some "lines";
          Scatter.line := Some (Line.mk (Some color) None (Some "dash"));
          Scatter.marker := None;
          Scatter.name := Some name;
          Scatter.fill := None; Scatter.fillcolor := None;
          Scatter.hoverinfo := None; Scatter.showlegend := None |};;
     add_trace fig trace) (at_fig f)
    = (Return tt, at_fig (push f [capacity_trace t pal col name]))) as Hline.
  { intros f' col name [s Es]. unfold capacity_trace.
    step_with step_getitem. step_with step_getitem. step_with step_dict_getitem.
    step_go_Scatter Vc.
    by rewrite step_add_trace, Ec. }
  cbv beta.
  destruct (has_column t "cap") eqn:C.
  - erewrite bind_Return by (apply Hline; by apply has_column_true).
    destruct (default false (Model.logistic_floor m)); simpl.
    + step_with step_has_column. cbv beta.
      destruct (has_column t "floor") eqn:C'.
      * rewrite Hline by (by apply has_column_true). by rewrite push_push.
      * done.
    + by erewrite bind_Return by reflexivity.
  - erewrite bind_Return by reflexivity.
    destruct (default false (Model.logistic_floor m)); simpl.
    + step_with step_has_column. cbv beta.
      destruct (has_column t "floor") eqn:C'.
      * by rewrite Hline by (by apply has_column_true).
      * unfold ret. by rewrite push_nil.
    + erewrite bind_Return by reflexivity. unfold ret. by rewrite push_nil.
Qed.

Lemma run__add_uncertainty f m :
  _add_uncertainty fig m fcst palette (at_fig f)
  = (outcome (band_error t (has_samples m)) tt,
     at_fig (push f (band_part t pal (has_samples m)))).
Proof.
  destruct Hds as [ds Eds], Huncertainty as [c Ec].
  pose proof (Vuncertainty c Ec) as Vc.
  unfold _add_uncertainty, band_part, band_error, has_samples.
  destruct (default 0 (Model.uncertainty_samples m) >? 0); simpl;
    [|unfold ret; by rewrite push_nil].
  step_with step_getitem.
  destruct (t !! "yhat_upper") as [up|] eqn:Eup.
  - step_with step_getitem. step_go_Scatter Vc.
    erewrite bind_Return by apply step_add_trace.
    step_with step_getitem.
    destruct (t !! "yhat_lower") as [lo|] eqn:Elo.
    + step_with step_getitem. step_with step_dict_getitem.
      step_go_Scatter Vc.
      rewrite step_add_trace, push_push. unfold lower_trace. by rewrite Ec.
    + by erewrite bind_Raise by (by apply step_getitem_missing).
  - erewrite bind_Raise by (by apply step_getitem_missing).
    by rewrite push_nil.
Qed.

End steps.

(** ** A whole call *)

Lemma fresh_lookup (h : heap) : h !! fresh (dom h) = None.
Proof. apply (not_elem_of_dom (D := gset loc)). apply is_fresh. Qed.

Lemma copy_loc_fresh h : h !! copy_loc h = None.
Proof. apply fresh_lookup. Qed.

Lemma palette_loc_fresh_copy h fcst : with_copy h fcst !! palette_loc h fcst = None.
Proof. apply fresh_lookup. Qed.

Lemma palette_loc_fresh h fcst : h !! palette_loc h fcst = None.
Proof.
  pose proof (palette_loc_fresh_copy h fcst) as N. unfold with_copy in N.
  apply lookup_insert_None in N. tauto.
Qed.

Lemma palette_loc_copy_loc h fcst : copy_loc h ≠ palette_loc h fcst.
Proof.
  pose proof (palette_loc_fresh_copy h fcst) as N. unfold with_copy in N.
  apply lookup_insert_None in N. tauto.
Qed.

(** Objects of the caller's heap are still there once the copies are made. *)
Lemma with_palette_lookup h fcst o l ob :
  h !! l = Some ob → with_palette h fcst o !! l = Some ob.
Proof.
  intros E. unfold with_palette, with_copy.
  rewrite !lookup_insert_ne; [done | |].
  - intros <-. by rewrite copy_loc_fresh in E.
  - intros <-. by rewrite palette_loc_fresh in E.
Qed.

Lemma with_palette_table_at h fcst o l t :
  table_at h l = Some t → table_at (with_palette h fcst o) l = Some t.
Proof.
  unfold table_at. destruct (h !! l) as [[]|] eqn:E; try done.
  intros [= <-]. by rewrite (with_palette_lookup _ _ _ _ _ E).
Qed.

Lemma table_at_Some h l t : table_at h l = Some t ↔ h !! l = Some (DataFrameObj t).
Proof. unfold table_at. destruct (h !! l) as [[]|]; naive_solver. Qed.

Lemma dict_at_Some h l d : dict_at h l = Some d ↔ h !! l = Some (DictObj d).
Proof. unfold dict_at. destruct (h !! l) as [[]|]; naive_solver. Qed.

Lemma figure_at_Some h l f : figure_at h l = Some f ↔ h !! l = Some (FigureObj f).
Proof. unfold figure_at. destruct (h !! l) as [[]|]; naive_solver. Qed.

Lemma is_table_with_inv h l c1 c2 :
  is_table_with h l [c1; c2] = true →
  ∃ t, h !! l = Some (DataFrameObj t) ∧ is_Some (t !! c1) ∧ is_Some (t !! c2).
Proof.
  unfold is_table_with. destruct (table_at h l) as [t|] eqn:E; [|done].
  apply table_at_Some in E. simpl. rewrite !andb_true_iff.
  intros (C1 & C2 & _). exists t. eauto using has_column_true.
Qed.

Lemma well_formed_inv h m fcst o :
  well_formed h m fcst o = true → well_formed_facts h m fcst o.
Proof.
  unfold well_formed, palette_ok, history_ok, fig_ok, colors_ok.
  rewrite !andb_true_iff.
  intros ((((P & T) & H) & F) & C).
  apply bool_decide_eq_true, dict_at_Some in P.
  apply is_table_with_inv in T as (t & Et & Ds & Y).
  assert (table_of h fcst = t) as Eq
    by (unfold table_of, table_at; by rewrite Et).
  split; rewrite ?Eq; try done.
  - intros l E. rewrite E in H. simpl in H. by apply is_table_with_inv in H.
  - intros l E. rewrite E in F. simpl in F.
    apply bool_decide_eq_true in F as [f Ef].
    unfold initial_figure. rewrite E. simpl. rewrite Ef. simpl.
    by apply figure_at_Some.
  - intros l E. rewrite E in C. simpl in C.
    apply bool_decide_eq_true in C as [d Ed].
    unfold overrides. rewrite E. simpl. rewrite Ed. simpl.
    by apply dict_at_Some.
Qed.

(** The effective palette has the four roles, whatever the overrides. *)
Lemma effective_palette_roles h o role :
  role ∈ ["forecast"; "observed"; "cap"; "uncertainty"] →
  is_Some (effective_palette h o !! role).
Proof.
  intros R. unfold effective_palette.
  assert (is_Some (default_palette !! role)) as [c Ec].
  { repeat (apply elem_of_cons in R as [->|R]; [by eexists|]).
    by apply elem_of_nil in R. }
  destruct (overrides h o !! role) as [c'|] eqn:E.
  - exists c'. by apply lookup_union_Some_l.
  - exists c. rewrite lookup_union_r; done.
Qed.

(** When the palette is valid, the colour of each role is. *)
Lemma palette_valid_role h o role c :
  palette_valid h o = true →
  role ∈ ["forecast"; "observed"; "cap"; "uncertainty"] →
  effective_palette h o !! role = Some c → valid_color c = true.
Proof.
  unfold palette_valid. simpl. rewrite !andb_true_iff.
  intros (F & O & C & U & _) R E.
  repeat (apply elem_of_cons in R as [->|R];
          [by match goal with V : context [effective_palette h o !! _] |- _ =>
                rewrite E in V; exact V end|]).
  by apply elem_of_nil in R.
Qed.

(** The palette steps, lines 171-173: the copy of [DEFAULT_PALETTE] ends
    up holding the effective palette. *)
Lemma run_dict_copy h m fcst o :
  well_formed_facts h m fcst o →
  dict_copy DEFAULT_PALETTE (with_copy h fcst)
  = (Return (palette_loc h fcst),
     <[palette_loc h fcst := DictObj default_palette]> (with_copy h fcst)).
Proof.
  intros W.
  assert (with_copy h fcst !! DEFAULT_PALETTE = Some (DictObj default_palette)) as P.
  { unfold with_copy. rewrite lookup_insert_ne; [apply W|].
    intros E. pose proof (wf_palette _ _ _ _ W) as P.
    by rewrite <- E, copy_loc_fresh in P. }
  unfold dict_copy. by rewrite P.
Qed.

Lemma run_overrides h m fcst o :
  well_formed_facts h m fcst o →
  match Options.colors o with
  | Some colors =>
      nonempty <- dict_bool colors;;
      if nonempty : bool then dict_update (palette_loc h fcst) colors else ret tt
  | None => ret tt
  end (<[palette_loc h fcst := DictObj default_palette]> (with_copy h fcst))
  = (Return tt, with_palette h fcst o).
Proof.
  intros W. unfold with_palette, effective_palette, overrides.
  destruct (Options.colors o) as [lc|] eqn:C; simpl.
  - pose proof (wf_colors _ _ _ _ W lc C) as D.
    unfold overrides in D. rewrite C in D. simpl in D.
    destruct (dict_at h lc) as [d|] eqn:Ed;
      [|apply dict_at_Some in D; congruence].
    simpl in *.
    assert (palette_loc h fcst ≠ lc) as N1.
    { intros <-. by rewrite palette_loc_fresh in D. }
    assert (copy_loc h ≠ lc) as N2.
    { intros <-. by rewrite copy_loc_fresh in D. }
    erewrite bind_Return; first last.
    { unfold dict_bool, with_copy.
      rewrite !lookup_insert_ne, D by done. reflexivity. }
    cbv beta. destruct (bool_decide (d = ∅)) eqn:B; simpl.
    + apply bool_decide_eq_true in B. subst d.
      unfold ret. by rewrite (left_id ∅ (∪)).
    + unfold dict_update, with_copy.
      rewrite lookup_insert_eq, !lookup_insert_ne, D by done.
      by rewrite insert_insert_eq.
  - unfold ret. by rewrite (left_id ∅ (∪)).
Qed.

(** The steps before the figure, lines 168-173, under what they need:
    the module's palette, a table at [fcst], and a dict as [colors]
    when passed; [K] is the rest of the program. *)
Lemma run_copies {B} (K : loc → loc → M B) h fcst o t :
  palette_ok h = true →
  colors_ok h o = true →
  table_at h fcst = Some t →
  (fcst' <- DataFrame_copy fcst;;
   palette <- dict_copy DEFAULT_PALETTE;;
   match Options.colors o with
   | Some colors =>
       nonempty <- dict_bool colors;;
       if nonempty : bool then dict_update palette colors else ret tt
   | None => ret tt
   end;;
   K fcst' palette) h
  = K (copy_loc h) (palette_loc h fcst) (with_palette h fcst o).
Proof.
  intros P%bool_decide_eq_true%dict_at_Some C T.
  pose proof (proj1 (table_at_Some _ _ _) T) as Et.
  assert (table_of h fcst = t) as Eq by (unfold table_of; by rewrite T).
  erewrite bind_Return; first last.
  { unfold DataFrame_copy. rewrite Et. reflexivity. }
  fold (copy_loc h). rewrite <- Eq. fold (with_copy h fcst).
  assert (with_copy h fcst !! DEFAULT_PALETTE = Some (DictObj default_palette)) as P'.
  { unfold with_copy. rewrite lookup_insert_ne; [done|].
    intros E. by rewrite <- E, copy_loc_fresh in P. }
  erewrite bind_Return; first last.
  { unfold dict_copy. rewrite P'. reflexivity. }
  fold (palette_loc h fcst).
  unfold with_palette, effective_palette, overrides.
  destruct (Options.colors o) as [lc|] eqn:Ec; simpl.
  - unfold colors_ok in C. rewrite Ec in C. simpl in C.
    apply bool_decide_eq_true in C as [d D].
    rewrite D. simpl. apply dict_at_Some in D.
    assert (palette_loc h fcst ≠ lc) as N1.
    { intros <-. by rewrite palette_loc_fresh in D. }
    assert (copy_loc h ≠ lc) as N2.
    { intros <-. by rewrite copy_loc_fresh in D. }
    assert (dict_bool lc (<[palette_loc h fcst := DictObj default_palette]>
                            (with_copy h fcst))
            = (Return (negb (bool_decide (d = ∅))),
               <[palette_loc h fcst := DictObj default_palette]>
                 (with_copy h fcst))) as Bool.
    { unfold dict_bool, with_copy.
      by rewrite !lookup_insert_ne, D by done. }
    destruct (bool_decide (d = ∅)) eqn:Em; simpl in Bool.
    + apply bool_decide_eq_true in Em. subst d.
      erewrite bind_Return; first last.
      { erewrite bind_Return by apply Bool. reflexivity. }
      by rewrite (left_id ∅ (∪)).
    + erewrite bind_Return; first last.
      { erewrite bind_Return by apply Bool. cbv beta.
        unfold dict_update, with_copy.
        rewrite lookup_insert_eq, !lookup_insert_ne, D by done. reflexivity. }
      by rewrite insert_insert_eq.
  - erewrite bind_Return by reflexivity.
    by rewrite (left_id ∅ (∪)).
Qed.

(** The steps after the copies keep the objects made so far, whether
    the call returns or raises. *)
Lemma plot_forecast_keeps_copies h m fcst o t :
  palette_ok h = true →
  colors_ok h o = true →
  table_at h fcst = Some t →
  keeps (with_palette h fcst o) (plot_forecast m fcst o h).2.
Proof.
  intros P C T. unfold plot_forecast. erewrite run_copies by done. cbv beta.
  match goal with
  | |- keeps ?h2 (?c ?h2).2 => cut (safe h2 c); [intros S; apply S, keeps_refl|]
  end.
  apply safe_bind; [|intros fig].
  { destruct (Options.fig o);
      [apply safe_ret | apply safe_new_safe, safe_new_go_Figure]. }
  repeat first
    [ apply safe__add_forecast | apply safe__add_observed
    | apply safe__add_capacity | apply safe__add_uncertainty
    | apply safe_update_layout | apply safe_ret
    | match goal with |- safe _ (if ?b then _ else _) => destruct b end
    | apply safe_bind; [|intros ?] ].
Qed.

(** The palette a well-formed call builds is, when the call is over,
    the effective palette. *)
Lemma plot_forecast_palette h m fcst o :
  well_formed h m fcst o = true →
  dict_at (plot_forecast m fcst o h).2 (palette_loc h fcst)
  = Some (effective_palette h o).
Proof.
  unfold well_formed. rewrite !andb_true_iff.
  intros ((((P & T) & _) & _) & C).
  unfold is_table_with in T.
  destruct (table_at h fcst) as [t|] eqn:Et; [|done].
  pose proof (plot_forecast_keeps_copies h m fcst o t P C Et) as K.
  apply dict_at_Some.
  apply (K (palette_loc h fcst) (DictObj (effective_palette h o))).
  unfold with_palette. by rewrite lookup_insert_eq.
Qed.

Lemma history_table_at h m fcst o :
  well_formed_facts h m fcst o →
  Model.history m ≫= table_at (with_palette h fcst o)
  = Model.history m ≫= table_at h.
Proof.
  intros W. destruct (Model.history m) as [l|] eqn:E; [|done]. simpl.
  destruct (wf_history _ _ _ _ W l E) as (th & Eth & _).
  rewrite (proj2 (table_at_Some h l th) Eth).
  by apply with_palette_table_at, table_at_Some.
Qed.

(** The trace steps, lines 179-186, on the figure [f] at [lg], followed
    by any continuation [k]. *)
Lemma run_traces {B} (k : M B) h m fcst o lg f :
  well_formed_facts h m fcst o →
  palette_valid h o = true →
  lg ≠ copy_loc h → lg ≠ palette_loc h fcst →
  (∀ l, Model.history m = Some l → lg ≠ l) →
  (_add_forecast lg (copy_loc h) (palette_loc h fcst);;
   _add_observed lg m (palette_loc h fcst);;
   (if Options.plot_cap o
    then _add_capacity lg m (copy_loc h) (palette_loc h fcst) else ret tt);;
   (if Options.uncertainty o
    then _add_uncertainty lg m (copy_loc h) (palette_loc h fcst) else ret tt);;
   k) (<[lg := FigureObj f]> (with_palette h fcst o))
  = let h' := <[lg := FigureObj (push f (added_traces h m fcst o))]>
                (with_palette h fcst o) in
    match call_error h m fcst o with
    | None => k h'
    | Some e => (Raise e, h')
    end.
Proof.
  intros W V N1 N2 N3.
  set (h2 := with_palette h fcst o).
  set (t := table_of h fcst). set (pal := effective_palette h o).
  assert (h2 !! copy_loc h = Some (DataFrameObj t)) as Ht.
  { unfold h2, with_palette, with_copy.
    rewrite lookup_insert_ne by (apply not_eq_sym, palette_loc_copy_loc).
    by rewrite lookup_insert_eq. }
  assert (h2 !! palette_loc h fcst = Some (DictObj pal)) as Hp.
  { unfold h2, with_palette. by rewrite lookup_insert_eq. }
  pose proof (wf_ds _ _ _ _ W) as Hds. pose proof (wf_yhat _ _ _ _ W) as Hy.
  assert (∀ role, role ∈ ["forecast"; "observed"; "cap"; "uncertainty"] →
          is_Some (pal !! role)) as R
    by (intros; by apply effective_palette_roles).
  assert (is_Some (pal !! "forecast")) as Rf by (apply R; set_solver).
  assert (is_Some (pal !! "observed")) as Ro by (apply R; set_solver).
  assert (is_Some (pal !! "cap")) as Rc by (apply R; set_solver).
  assert (is_Some (pal !! "uncertainty")) as Ru by (apply R; set_solver).
  assert (∀ c, pal !! "forecast" = Some c → valid_color c = true) as Vf
    by (intros c; apply palette_valid_role; [done | set_solver]).
  assert (∀ c, pal !! "observed" = Some c → valid_color c = true) as Vo
    by (intros c; apply palette_valid_role; [done | set_solver]).
  assert (∀ c, pal !! "cap" = Some c → valid_color c = true) as Vc
    by (intros c; apply palette_valid_role; [done | set_solver]).
  assert (∀ c, pal !! "uncertainty" = Some c → valid_color c = true) as Vu
    by (intros c; apply palette_valid_role; [done | set_solver]).
  erewrite bind_Return by (by eapply run__add_forecast).
  erewrite bind_Return; first last.
  { eapply (run__add_observed h2 lg (palette_loc h fcst) pal); try done.
    intros l E. split; [by apply N3|].
    destruct (wf_history _ _ _ _ W l E) as (th & Eth & ?).
    exists th. split; [|done]. by apply with_palette_lookup. }
  assert (Model.history m ≫= table_at h2 = Model.history m ≫= table_at h) as ->
    by (by apply history_table_at).
  set (caps := if Options.plot_cap o
               then (cap_part t pal ++ floor_part t pal m)%list else []).
  assert (∀ f', (if Options.plot_cap o
                 then _add_capacity lg m (copy_loc h) (palette_loc h fcst)
                 else ret tt) (<[lg := FigureObj f']> h2)
                = (Return tt, <[lg := FigureObj (push f' caps)]> h2)) as Caps.
  { intros f'. unfold caps. destruct (Options.plot_cap o).
    - by eapply run__add_capacity.
    - unfold ret. by rewrite push_nil. }
  erewrite bind_Return by apply Caps.
  assert (∀ f', (if Options.uncertainty o
                 then _add_uncertainty lg m (copy_loc h) (palette_loc h fcst)
                 else ret tt) (<[lg := FigureObj f']> h2)
                = (outcome (band_error t (band_wanted m o)) tt,
                   <[lg := FigureObj (push f' (band_part t pal (band_wanted m o)))]> h2))
    as Band.
  { intros f'. unfold band_wanted. destruct (Options.uncertainty o); simpl.
    - by eapply run__add_uncertainty.
    - unfold ret. by rewrite push_nil. }
  unfold call_error. fold t.
  rewrite !push_push.
  assert (added_traces h m fcst o
          = (([forecast_trace t pal]
              ++ observed_part pal (Model.history m ≫= table_at h)) ++ caps
             ++ band_part t pal (band_wanted m o))%list) as ->
    by (unfold added_traces; fold t pal caps; by rewrite <- !app_assoc).
  destruct (band_error t (band_wanted m o)) as [e|] eqn:Err; simpl.
  - erewrite bind_Raise; [| rewrite Band; reflexivity].
    rewrite push_push. simpl. by rewrite <- app_assoc.
  - erewrite bind_Return; [| rewrite Band; reflexivity].
    rewrite push_push. simpl. by rewrite <- app_assoc.
Qed.

(** A well-formed call, as a whole: its result and the heap it leaves. *)
Lemma plot_forecast_run h m fcst o :
  well_formed h m fcst o = true →
  valid_values h o = true →
  plot_forecast m fcst o h
  = (outcome (call_error h m fcst o) (figure_loc h fcst o),
     <[figure_loc h fcst o := FigureObj (final_figure h m fcst o)]>
       (with_palette h fcst o)).
Proof.
  intros W%well_formed_inv [Vp [Vw Vh]%andb_true_iff]%andb_true_iff.
  unfold plot_forecast.
  erewrite bind_Return; first last.
  { unfold DataFrame_copy. rewrite (wf_fcst _ _ _ _ W). reflexivity. }
  fold (copy_loc h). fold (with_copy h fcst).
  erewrite bind_Return by (by eapply run_dict_copy).
  erewrite bind_Return by (by eapply run_overrides).
  set (h2 := with_palette h fcst o).
  assert (∀ l, Model.history m = Some l →
               ∃ th, h2 !! l = Some (DataFrameObj th)) as Hist.
  { intros l E. destruct (wf_history _ _ _ _ W l E) as (th & Eth & _).
    exists th. by apply with_palette_lookup. }
  assert (is_Some (h2 !! copy_loc h)) as Sc.
  { unfold h2, with_palette, with_copy.
    rewrite lookup_insert_ne by (apply not_eq_sym, palette_loc_copy_loc).
    by rewrite lookup_insert_eq. }
  assert (is_Some (h2 !! palette_loc h fcst)) as Sp.
  { unfold h2, with_palette. by rewrite lookup_insert_eq. }
  assert (∃ lg f0, lg = figure_loc h fcst o ∧ f0 = initial_figure h o
            ∧ match Options.fig o with
              | Some fig => ret fig
              | None => go_Figure
              end h2 = (Return lg, <[lg := FigureObj f0]> h2)
            ∧ lg ≠ copy_loc h ∧ lg ≠ palette_loc h fcst
            ∧ ∀ l, Model.history m = Some l → lg ≠ l)
    as (lg & f0 & Elg & Ef0 & Fig & N1 & N2 & N3).
  { unfold figure_loc, initial_figure. fold h2.
    destruct (Options.fig o) as [lg|] eqn:F; simpl.
    - pose proof (wf_fig _ _ _ _ W lg F) as G.
      unfold initial_figure in G. rewrite F in G. simpl in G.
      eexists _, _. split; [done|]. split; [done|].
      assert (h2 !! lg = Some (FigureObj (default (Figure.mk [] Layout.empty)
                                            (figure_at h lg)))) as G2
        by (by apply with_palette_lookup).
      split; [unfold ret; by rewrite insert_id|].
      split; [intros ->; by rewrite copy_loc_fresh in G|].
      split; [intros ->; by rewrite palette_loc_fresh in G|].
      intros l E ->. destruct (Hist l E) as [th Eth]. congruence.
    - pose proof (fresh_lookup h2) as N.
      eexists _, _. split; [done|]. split; [done|].
      split; [reflexivity|].
      split; [intros E; rewrite E in N; destruct Sc; congruence|].
      split; [intros E; rewrite E in N; destruct Sp; congruence|].
      intros l E En. destruct (Hist l E) as [th Eth]. congruence. }
  erewrite bind_Return by apply Fig.
  rewrite run_traces by done. fold h2.
  unfold final_figure. rewrite <- Elg, <- Ef0.
  destruct (call_error h m fcst o) as [e|]; [done|]. simpl.
  erewrite bind_Return by (by apply step_update_layout).
  unfold legend_kwargs.
  destruct (Options.include_legend o);
    erewrite bind_Return by (by apply step_update_layout); reflexivity.
Qed.

(** ** What the caller sees *)

Lemma figure_at_insert h l f : figure_at (<[l := FigureObj f]> h) l = Some f.
Proof. unfold figure_at. by rewrite lookup_insert_eq. Qed.

Lemma call_error_None h m fcst o :
  call_error h m fcst o = None ↔ band_columns_ok h m fcst o = true.
Proof.
  unfold call_error, band_columns_ok, band_error, has_column.
  destruct (band_wanted m o); [|done].
  destruct (table_of h fcst !! "yhat_upper"), (table_of h fcst !! "yhat_lower");
    simpl; rewrite ?andb_true_iff, ?bool_decide_eq_true;
    split; try done; try (intros [[? ?] [? ?]]; done); eauto.
Qed.

(** A well-formed call whose band columns are there returns the figure. *)
Lemma plot_forecast_returns h m fcst o :
  well_formed h m fcst o = true →
  valid_values h o = true →
  band_columns_ok h m fcst o = true →
  returned_figure (plot_forecast m fcst o h) = Some (final_figure h m fcst o).
Proof.
  intros W V B%call_error_None. rewrite plot_forecast_run by done.
  unfold returned_figure. simpl. rewrite B. simpl. apply figure_at_insert.
Qed.

(** Whatever a well-formed call leaves for the caller to see is
    [final_figure]. *)
Lemma plot_forecast_resulting h m fcst o f' :
  well_formed h m fcst o = true →
  valid_values h o = true →
  resulting_figure o (plot_forecast m fcst o h) = Some f' →
  f' = final_figure h m fcst o.
Proof.
  intros W V. rewrite plot_forecast_run by done.
  unfold resulting_figure. simpl.
  destruct (call_error h m fcst o); simpl.
  - unfold figure_loc. destruct (Options.fig o); simpl; [|done].
    rewrite figure_at_insert. congruence.
  - rewrite figure_at_insert. congruence.
Qed.

Lemma returned_resulting o out f' :
  returned_figure out = Some f' → resulting_figure o out = Some f'.
Proof. unfold returned_figure, resulting_figure. by destruct (out.1). Qed.

Lemma final_figure_data h m fcst o :
  Figure.data (final_figure h m fcst o)
  = Figure.data (initial_figure h o) ++ added_traces h m fcst o.
Proof. unfold final_figure. by destruct (call_error h m fcst o). Qed.

(** The traces a call appends, one by one. *)
Lemma elem_of_observed_part pal hist tr :
  tr ∈ observed_part pal hist ↔ ∃ th, hist = Some th ∧ tr = observed_trace th pal.
Proof.
  destruct hist as [th|]; simpl.
  - rewrite list_elem_of_singleton. split; [eauto|]. by intros (? & [= <-] & ?).
  - rewrite elem_of_nil. split; [done|]. by intros (? & ? & ?).
Qed.

Lemma elem_of_cap_part t pal tr :
  tr ∈ cap_part t pal ↔
    has_column t "cap" = true ∧ tr = capacity_trace t pal "cap" "Maximum capacity".
Proof.
  unfold cap_part. destruct (has_column t "cap").
  - rewrite list_elem_of_singleton. tauto.
  - rewrite elem_of_nil. split; [done|]. by intros [? _].
Qed.

Lemma elem_of_floor_part t pal m tr :
  tr ∈ floor_part t pal m ↔
    default false (Model.logistic_floor m) = true
    ∧ has_column t "floor" = true
    ∧ tr = capacity_trace t pal "floor" "Minimum capacity".
Proof.
  unfold floor_part.
  destruct (default false (Model.logistic_floor m)), (has_column t "floor"); simpl;
    rewrite ?list_elem_of_singleton, ?elem_of_nil; intuition congruence.
Qed.

Lemma elem_of_added_traces h m fcst o tr :
  let t := table_of h fcst in
  let pal := effective_palette h o in
  tr ∈ added_traces h m fcst o ↔
    tr = forecast_trace t pal
    ∨ (∃ th, Model.history m ≫= table_at h = Some th ∧ tr = observed_trace th pal)
    ∨ (Options.plot_cap o = true ∧ has_column t "cap" = true
       ∧ tr = capacity_trace t pal "cap" "Maximum capacity")
    ∨ (Options.plot_cap o = true
       ∧ default false (Model.logistic_floor m) = true
       ∧ has_column t "floor" = true
       ∧ tr = capacity_trace t pal "floor" "Minimum capacity")
    ∨ tr ∈ band_part t pal (band_wanted m o).
Proof.
  intros t pal. unfold added_traces. fold t pal.
  rewrite !elem_of_app, list_elem_of_singleton, elem_of_observed_part.
  destruct (Options.plot_cap o).
  - rewrite elem_of_app, elem_of_cap_part, elem_of_floor_part. tauto.
  - rewrite elem_of_nil. intuition congruence.
Qed.

(** ** The caller's objects after a call *)

Lemma plot_forecast_keeps h m fcst o : keeps h (plot_forecast m fcst o h).2.
Proof. apply safe_plot_forecast, keeps_refl. Qed.

Lemma keeps_trans h0 h1 h2 : keeps h0 h1 → keeps h1 h2 → keeps h0 h2.
Proof.
  intros K1 K2 l ob E. specialize (K1 l ob E). destruct ob.
  - apply (K2 l _ K1).
  - apply (K2 l _ K1).
  - destruct K1 as [f1 E1]. apply (K2 l _ E1).
Qed.

Lemma keeps_table_at h0 h l t :
  keeps h0 h → table_at h0 l = Some t → table_at h l = Some t.
Proof.
  intros K E%table_at_Some. apply table_at_Some. apply (K l _ E).
Qed.

Lemma keeps_dict_at h0 h l d :
  keeps h0 h → dict_at h0 l = Some d → dict_at h l = Some d.
Proof.
  intros K E%dict_at_Some. apply dict_at_Some. apply (K l _ E).
Qed.

Lemma keeps_figure_at h0 h l :
  keeps h0 h → is_Some (figure_at h0 l) → is_Some (figure_at h l).
Proof.
  intros K [f E%figure_at_Some]. destruct (K l _ E) as [f' E'].
  exists f'. by apply figure_at_Some.
Qed.

Lemma keeps_is_table_with h0 h l cols :
  keeps h0 h → is_table_with h0 l cols = true → is_table_with h l cols = true.
Proof.
  intros K. unfold is_table_with.
  destruct (table_at h0 l) as [t|] eqn:E; [|done].
  by rewrite (keeps_table_at _ _ _ _ K E).
Qed.

Lemma keeps_overrides h0 h m fcst o :
  keeps h0 h → well_formed h0 m fcst o = true → overrides h o = overrides h0 o.
Proof.
  intros K W%well_formed_inv. unfold overrides.
  destruct (Options.colors o) as [l|] eqn:C; [|done]. simpl.
  pose proof (wf_colors _ _ _ _ W l C) as D%dict_at_Some.
  by rewrite D, (keeps_dict_at _ _ _ _ K D).
Qed.

(** A call that is well formed stays so after any call. *)
Lemma keeps_well_formed h0 h m fcst o :
  keeps h0 h → well_formed h0 m fcst o = true → well_formed h m fcst o = true.
Proof.
  intros K. unfold well_formed, palette_ok, history_ok, fig_ok, colors_ok.
  rewrite !andb_true_iff.
  intros ((((P & T) & H) & F) & C). repeat split.
  - apply bool_decide_eq_true in P. apply bool_decide_eq_true.
    by apply (keeps_dict_at h0).
  - by apply (keeps_is_table_with h0).
  - destruct (Model.history m); [|done]. by apply (keeps_is_table_with h0).
  - destruct (Options.fig o); [|done]. simpl in *.
    apply bool_decide_eq_true in F. apply bool_decide_eq_true.
    by apply (keeps_figure_at h0).
  - destruct (Options.colors o); [|done]. simpl in *.
    apply bool_decide_eq_true in C as [d D]. apply bool_decide_eq_true.
    exists d. by apply (keeps_dict_at h0).
Qed.

(** C7: the caller's forecast table is unchanged when a call is over,
    whether it returned or raised: the object at the caller's location
    [fcst] holds the same rows and columns after the call as before,
    and still does after a second call.  The program works on the copy
    made on line 168. *)
Theorem caller_table_unchanged h m fcst o :
  (plot_forecast m fcst o h).2 !! fcst = h !! fcst
  ∧ (plot_forecast m fcst o (plot_forecast m fcst o h).2).2 !! fcst = h !! fcst.
Proof.
  assert (∀ h m o, (plot_forecast m fcst o h).2 !! fcst = h !! fcst) as One.
  { clear. intros h m o. destruct (h !! fcst) as [ob|] eqn:E.
    - destruct ob as [t|d|f].
      + apply (plot_forecast_keeps h m fcst o fcst _ E).
      + apply (plot_forecast_keeps h m fcst o fcst _ E).
      + unfold plot_forecast. erewrite bind_Raise; [done|].
        unfold DataFrame_copy. by rewrite E.
    - unfold plot_forecast. erewrite bind_Raise; [done|].
      unfold DataFrame_copy. by rewrite E. }
  split; [apply One|]. by rewrite !One.
Qed.

(** C8: no call mutates the dict bound to [DEFAULT_PALETTE]: whatever
    the arguments (any [colors]), the dict is the same after the call as
    before.  Hence a later call is not affected by this call's
    overrides: a call that was well formed before still is, its
    effective palette is the one it would have had, and that is the
    palette it builds. *)
Theorem default_palette_unchanged h m fcst o d m' fcst' o' :
  h !! DEFAULT_PALETTE = Some (DictObj d) →
  let h1 := (plot_forecast m fcst o h).2 in
  h1 !! DEFAULT_PALETTE = Some (DictObj d)
  ∧ (well_formed h m' fcst' o' = true →
     well_formed h1 m' fcst' o' = true
     ∧ effective_palette h1 o' = effective_palette h o'
     ∧ dict_at (plot_forecast m' fcst' o' h1).2 (palette_loc h1 fcst')
       = Some (overrides h o' ∪ default_palette)).
Proof.
  intros E h1. pose proof (plot_forecast_keeps h m fcst o) as K. fold h1 in K.
  split; [apply (K _ _ E)|]. intros W.
  pose proof (keeps_well_formed _ _ _ _ _ K W) as W1.
  assert (effective_palette h1 o' = effective_palette h o') as Eq
    by (unfold effective_palette; by rewrite (keeps_overrides h h1 m' fcst')).
  split; [done|]. split; [done|].
  rewrite plot_forecast_palette by done. by rewrite Eq.
Qed.

(** ** The uncertainty band *)

Lemma band_wanted_true m o :
  band_wanted m o = true ↔
    Options.uncertainty o = true ∧ 0 < default 0 (Model.uncertainty_samples m).
Proof.
  unfold band_wanted, has_samples. rewrite andb_true_iff.
  by rewrite Z.gtb_lt.
Qed.

Lemma band_part_unwanted t pal : band_part t pal false = [].
Proof. done. Qed.

Lemma band_part_wanted t pal :
  has_column t "yhat_upper" && has_column t "yhat_lower" = true →
  band_part t pal true = [upper_trace t; lower_trace t pal].
Proof.
  rewrite andb_true_iff. intros [[up Eu]%has_column_true [lo El]%has_column_true].
  unfold band_part. by rewrite Eu, El.
Qed.

Lemma added_traces_split h m fcst o :
  added_traces h m fcst o
  = before_band h m fcst o
    ++ band_part (table_of h fcst) (effective_palette h o) (band_wanted m o).
Proof. unfold added_traces, before_band. simpl. by rewrite <- !app_assoc. Qed.

Lemma before_band_no_band h m fcst o tr :
  tr ∈ before_band h m fcst o → is_band_trace tr = false.
Proof.
  intros E.
  assert (tr ∈ added_traces h m fcst (Options.mk (Options.fig o) false
            (Options.plot_cap o) (Options.xlabel o) (Options.ylabel o)
            (Options.width o) (Options.height o) (Options.include_legend o)
            (Options.colors o))) as E'.
  { rewrite added_traces_split. unfold band_wanted. simpl.
    rewrite ?band_part_unwanted, app_nil_r. exact E. }
  apply elem_of_added_traces in E'. unfold band_wanted in E'. simpl in E'.
  destruct E' as [->|[(th & _ & ->)|[(_ & _ & ->)|[(_ & _ & _ & ->)|E']]]];
    try done.
  by apply elem_of_nil in E'.
Qed.

(** C1, as the program has it: for a well-formed call with valid
    values (palette colours the library accepts, width and height at
    least 10), when the table has the columns [yhat_upper] and
    [yhat_lower] whenever the band is wanted, the call returns, and the
    band is among the traces it added if and only if
    [uncertainty] is true and the model's sample count is positive (an
    absent count counts as 0).  The band is then the last two traces
    added: the upper bound immediately before the lower bound; the
    upper bound over [(ds, yhat_upper)] with line width 0, hover
    skipped and kept out of the legend; the lower bound over
    [(ds, yhat_lower)] with line width 0, filled to the previous trace
    in the colour of the [uncertainty] role and labelled
    "Uncertainty interval". *)
Theorem uncertainty_band h m fcst o :
  well_formed h m fcst o = true →
  valid_values h o = true →
  band_columns_ok h m fcst o = true →
  ∃ f' added,
    returned_figure (plot_forecast m fcst o h) = Some f'
    ∧ Figure.data f' = Figure.data (initial_figure h o) ++ added
    ∧ ((∃ tr, tr ∈ added ∧ is_band_trace tr = true) ↔
         Options.uncertainty o = true
         ∧ 0 < default 0 (Model.uncertainty_samples m))
    ∧ (Options.uncertainty o = true →
       0 < default 0 (Model.uncertainty_samples m) →
       ∃ pre up lo,
         added = pre ++ [up; lo]
         ∧ (∀ tr, tr ∈ pre → is_band_trace tr = false)
         ∧ table_of h fcst !! "ds" = Some (Scatter.x up)
         ∧ table_of h fcst !! "yhat_upper" = Some (Scatter.y up)
         ∧ Scatter.line up = Some (Line.mk None (Some 0) None)
         ∧ Scatter.hoverinfo up = Some "skip"
         ∧ Scatter.showlegend up = Some false
         ∧ Scatter.name up = None
         ∧ table_of h fcst !! "ds" = Some (Scatter.x lo)
         ∧ table_of h fcst !! "yhat_lower" = Some (Scatter.y lo)
         ∧ Scatter.line lo = Some (Line.mk None (Some 0) None)
         ∧ Scatter.fill lo = Some "tonexty"
         ∧ is_Some (Scatter.fillcolor lo)
         ∧ Scatter.fillcolor lo = effective_palette h o !! "uncertainty"
         ∧ Scatter.hoverinfo lo = Some "skip"
         ∧ Scatter.name lo = Some "Uncertainty interval").
Proof.
  intros W V B. exists (final_figure h m fcst o), (added_traces h m fcst o).
  split; [by apply plot_forecast_returns|].
  split; [apply final_figure_data|].
  rewrite <- band_wanted_true, added_traces_split.
  unfold band_columns_ok in B.
  destruct (band_wanted m o) eqn:Wanted.
  - rewrite band_part_wanted by done. split.
    + split; [done|]. intros _. exists (lower_trace (table_of h fcst) (effective_palette h o)).
      split; [|done]. rewrite elem_of_app. right. set_solver.
    + intros _ _. eexists _, _, _. split; [reflexivity|].
      split; [apply before_band_no_band|].
      pose proof (well_formed_inv _ _ _ _ W) as F.
      destruct (wf_ds _ _ _ _ F) as [ds Eds].
      apply andb_true_iff in B
        as [[up Eu]%has_column_true [lo El]%has_column_true].
      simpl. unfold column. rewrite Eds, Eu, El. simpl.
      repeat split; try done.
      apply effective_palette_roles. set_solver.
  - rewrite band_part_unwanted, app_nil_r. split.
    + split; [|done]. intros (tr & E & Bt).
      by rewrite (before_band_no_band _ _ _ _ _ E) in Bt.
    + intros U S.
      assert (band_wanted m o = true) by (by apply band_wanted_true).
      congruence.
Qed.

(** ** Capacity lines and observed points *)

Lemma band_part_is_band t pal wanted tr :
  tr ∈ band_part t pal wanted → is_band_trace tr = true.
Proof.
  unfold band_part. destruct wanted; [|by intros ?%elem_of_nil].
  destruct (t !! "yhat_upper"); [|by intros ?%elem_of_nil].
  destruct (t !! "yhat_lower"); rewrite ?elem_of_cons, elem_of_nil;
    intros [->|[->|[]]] || intros [->|[]]; done.
Qed.

Lemma band_trace_name tr label :
  is_band_trace tr = true → Scatter.name tr = Some label →
  label = "Uncertainty interval".
Proof.
  unfold is_band_trace. rewrite orb_true_iff, !bool_decide_eq_true.
  intros [E|E] N; congruence.
Qed.

(** A well-formed call leaves a figure for the caller to see: it
    returns one when the band's columns are there. *)
Lemma plot_forecast_is_Some h m fcst o :
  well_formed h m fcst o = true →
  valid_values h o = true →
  band_columns_ok h m fcst o = true →
  is_Some (returned_figure (plot_forecast m fcst o h)).
Proof. intros W V B. rewrite plot_forecast_returns by done. by eexists. Qed.

(** C2: the "Maximum capacity" line is among the traces a call adds if
    and only if [plot_cap] is true and the table has a [cap] column; the
    "Minimum capacity" line if and only if [plot_cap] is true, the
    model's [logistic_floor] is true and the table has a [floor] column.
    Neither condition mentions the other line.  Each line is dashed,
    over [(ds, cap)] resp. [(ds, floor)], in the colour of the [cap]
    role.  This holds of the figure the caller sees, also when the call
    raises later in the band step.
    This is of a well-formed call with valid values: palette colours
    the library accepts, [width] and [height] at least 10. *)
Theorem capacity_lines h m fcst o :
  well_formed h m fcst o = true →
  valid_values h o = true →
  let t := table_of h fcst in
  (band_columns_ok h m fcst o = true →
   is_Some (returned_figure (plot_forecast m fcst o h)))
  ∧ ∀ f', resulting_figure o (plot_forecast m fcst o h) = Some f' →
    ∃ added,
      Figure.data f' = Figure.data (initial_figure h o) ++ added
      ∧ ((∃ tr, tr ∈ added ∧ Scatter.name tr = Some "Maximum capacity") ↔
           Options.plot_cap o = true ∧ is_Some (t !! "cap"))
      ∧ ((∃ tr, tr ∈ added ∧ Scatter.name tr = Some "Minimum capacity") ↔
           Options.plot_cap o = true
           ∧ Model.logistic_floor m = Some true
           ∧ is_Some (t !! "floor"))
      ∧ (∀ tr, tr ∈ added → Scatter.name tr = Some "Maximum capacity" →
           t !! "ds" = Some (Scatter.x tr) ∧ t !! "cap" = Some (Scatter.y tr)
           ∧ Scatter.mode tr = Some "lines"
           ∧ Scatter.line tr
             = Some (Line.mk (effective_palette h o !! "cap") None (Some "dash")))
      ∧ (∀ tr, tr ∈ added → Scatter.name tr = Some "Minimum capacity" →
           t !! "ds" = Some (Scatter.x tr) ∧ t !! "floor" = Some (Scatter.y tr)
           ∧ Scatter.mode tr = Some "lines"
           ∧ Scatter.line tr
             = Some (Line.mk (effective_palette h o !! "cap") None (Some "dash"))).
Proof.
  intros W V t. split; [by apply plot_forecast_is_Some|].
  intros f' ->%plot_forecast_resulting; [|done..].
  exists (added_traces h m fcst o). split; [apply final_figure_data|].
  destruct (wf_ds _ _ _ _ (well_formed_inv _ _ _ _ W)) as [ds Eds].
  fold t in Eds.
  assert (default false (Model.logistic_floor m) = true
          ↔ Model.logistic_floor m = Some true) as Floor
    by (destruct (Model.logistic_floor m) as [[]|]; simpl; split; congruence).
  assert (∀ col, has_column t col = true ↔ is_Some (t !! col)) as Col
    by (intros col; unfold has_column; apply bool_decide_eq_true).
  assert (∀ tr label, tr ∈ added_traces h m fcst o →
            Scatter.name tr = Some label →
            label = "Maximum capacity" ∨ label = "Minimum capacity" →
            ∃ col, is_Some (t !! col) ∧ Options.plot_cap o = true
              ∧ tr = capacity_trace t (effective_palette h o) col label
              ∧ (col = "cap" ∧ label = "Maximum capacity"
                 ∨ col = "floor" ∧ label = "Minimum capacity"
                   ∧ Model.logistic_floor m = Some true)) as Inv.
  { intros tr label E N L. apply elem_of_added_traces in E. fold t in E.
    destruct E as [->|[(th & _ & ->)|[(P & C & ->)|[(P & F & C & ->)|E]]]].
    - simpl in N. destruct L; congruence.
    - simpl in N. destruct L; congruence.
    - simpl in N. injection N as <-. exists "cap". rewrite <- Col. intuition.
    - simpl in N. injection N as <-. exists "floor". rewrite <- Col, <- Floor.
      intuition.
    - apply band_part_is_band in E.
      pose proof (band_trace_name _ _ E N). destruct L; congruence. }
  split; [|split; [|split]].
  - split.
    + intros (tr & E & N).
      destruct (Inv tr _ E N (or_introl eq_refl))
        as (col & S & P & _ & [[-> _]|[_ [? _]]]); [done | done].
    + intros [P C]. exists (capacity_trace t (effective_palette h o) "cap"
                              "Maximum capacity").
      split; [|reflexivity]. apply elem_of_added_traces. fold t.
      right; right; left. by rewrite Col.
  - split.
    + intros (tr & E & N).
      destruct (Inv tr _ E N (or_intror eq_refl))
        as (col & S & P & _ & [[_ ?]|[-> [_ ?]]]); [done | done].
    + intros (P & F & C). exists (capacity_trace t (effective_palette h o) "floor"
                                    "Minimum capacity").
      split; [|reflexivity]. apply elem_of_added_traces. fold t.
      right; right; right; left. by rewrite Col, Floor.
  - intros tr E N.
    destruct (Inv tr _ E N (or_introl eq_refl))
      as (col & [s S] & P & -> & [[-> _]|[_ [? _]]]); [|done].
    simpl. unfold column. by rewrite Eds, S.
  - intros tr E N.
    destruct (Inv tr _ E N (or_intror eq_refl))
      as (col & [s S] & P & -> & [[_ ?]|[-> [_ ?]]]); [done|].
    simpl. unfold column. by rewrite Eds, S.
Qed.

(** C5: the "Observed data points" trace is among the traces a call
    adds if and only if the model has a [history]; it is a marker trace
    over the history's [(ds, y)] with markers of size 4 and opacity 1 in
    the colour of the [observed] role.  Without [history] the step does
    nothing and raises nothing.
    This is of a well-formed call with valid values: palette colours
    the library accepts, [width] and [height] at least 10. *)
Theorem observed_points h m fcst o :
  well_formed h m fcst o = true →
  valid_values h o = true →
  (band_columns_ok h m fcst o = true →
   is_Some (returned_figure (plot_forecast m fcst o h)))
  ∧ (Model.history m = None →
     ∀ fig palette h', _add_observed fig m palette h' = (Return tt, h'))
  ∧ ∀ f', resulting_figure o (plot_forecast m fcst o h) = Some f' →
    ∃ added,
      Figure.data f' = Figure.data (initial_figure h o) ++ added
      ∧ ((∃ tr, tr ∈ added ∧ Scatter.name tr = Some "Observed data points") ↔
           is_Some (Model.history m))
      ∧ (∀ tr, tr ∈ added → Scatter.name tr = Some "Observed data points" →
           ∃ l th,
             Model.history m = Some l ∧ h !! l = Some (DataFrameObj th)
             ∧ th !! "ds" = Some (Scatter.x tr) ∧ th !! "y" = Some (Scatter.y tr)
             ∧ Scatter.mode tr = Some "markers"
             ∧ Scatter.marker tr
               = Some (Marker.mk (effective_palette h o !! "observed")
                         (Some 4) (Some 1))).
Proof.
  intros W V. split; [by apply plot_forecast_is_Some|].
  split; [intros E fig palette h'; unfold _add_observed; by rewrite E|].
  intros f' ->%plot_forecast_resulting; [|done..].
  exists (added_traces h m fcst o). split; [apply final_figure_data|].
  pose proof (well_formed_inv _ _ _ _ W) as F.
  assert (∀ tr, tr ∈ added_traces h m fcst o →
            Scatter.name tr = Some "Observed data points" →
            ∃ l th, Model.history m = Some l ∧ h !! l = Some (DataFrameObj th)
              ∧ is_Some (th !! "ds") ∧ is_Some (th !! "y")
              ∧ tr = observed_trace th (effective_palette h o)) as Inv.
  { intros tr E N. apply elem_of_added_traces in E.
    destruct E as [->|[(th & H & ->)|[(_ & _ & ->)|[(_ & _ & _ & ->)|E]]]];
      try done.
    - destruct (Model.history m) as [l|] eqn:Hl; [|done]. simpl in H.
      apply table_at_Some in H.
      destruct (wf_history _ _ _ _ F l Hl) as (th' & H' & Sx & Sy).
      exists l, th. assert (th' = th) as -> by congruence. auto.
    - apply band_part_is_band in E. by pose proof (band_trace_name _ _ E N). }
  split.
  - split.
    + intros (tr & E & N). destruct (Inv tr E N) as (l & _ & -> & _). by eexists.
    + intros [l Hl].
      destruct (wf_history _ _ _ _ F l Hl) as (th & H & _).
      exists (observed_trace th (effective_palette h o)). split; [|reflexivity].
      apply elem_of_added_traces. right; left. exists th. split; [|done].
      rewrite Hl. simpl. by apply table_at_Some.
  - intros tr E N.
    destruct (Inv tr E N) as (l & th & Hl & H & [x Ex] & [y Ey] & ->).
    exists l, th. simpl. unfold column. by rewrite Ex, Ey.
Qed.

(** ** The forecast line alone *)

(** C3: on a table with the columns [ds] and [yhat] only and a model
    with none of the optional attributes, a call that passes no figure
    returns a figure with exactly one trace: the forecast line over all
    rows' [(ds, yhat)], of width 2, labelled "Forecast".  This holds
    whatever the other options are, so both with [uncertainty] and
    [plot_cap] false and with the default options; with the default
    options the figure moreover has width 800, height 600 and a hidden
    legend.  The values are to be valid: the palette colours of the
    call, and those of the default palette for the call with the
    default options, are colours the library accepts, and [width] and
    [height] are at least 10. *)
Theorem forecast_only h fcst o ds yhat :
  palette_ok h = true →
  table_at h fcst = Some {[ "ds" := ds; "yhat" := yhat ]} →
  Options.fig o = None →
  colors_ok h o = true →
  valid_values h o = true →
  valid_values h Options.default = true →
  (∃ f' tr,
     returned_figure (plot_forecast (Model.mk None None None) fcst o h) = Some f'
     ∧ Figure.data f' = [tr]
     ∧ Scatter.x tr = ds ∧ Scatter.y tr = yhat
     ∧ Scatter.mode tr = Some "lines"
     ∧ Scatter.line tr
       = Some (Line.mk (effective_palette h o !! "forecast") (Some 2) None)
     ∧ Scatter.name tr = Some "Forecast")
  ∧ (∃ f',
       returned_figure
         (plot_forecast (Model.mk None None None) fcst Options.default h) = Some f'
       ∧ length (Figure.data f') = 1%nat
       ∧ Layout.width (Figure.layout f') = Some 800
       ∧ Layout.height (Figure.layout f') = Some 600
       ∧ Layout.showlegend (Figure.layout f') = Some false).
Proof.
  intros P T F C V Vd.
  assert (table_of h fcst = {[ "ds" := ds; "yhat" := yhat ]}) as Et
    by (unfold table_of; by rewrite T).
  assert (∀ o', Options.fig o' = None → colors_ok h o' = true →
            well_formed h (Model.mk None None None) fcst o' = true
            ∧ band_columns_ok h (Model.mk None None None) fcst o' = true
            ∧ added_traces h (Model.mk None None None) fcst o'
              = [forecast_trace {[ "ds" := ds; "yhat" := yhat ]}
                   (effective_palette h o')]
            ∧ initial_figure h o' = Figure.mk [] Layout.empty) as Facts.
  { intros o' F' C'. split; [|split; [|split]].
    - unfold well_formed, is_table_with, history_ok, fig_ok.
      rewrite P, T, F', C'. simpl. by vm_compute.
    - unfold band_columns_ok, band_wanted, has_samples. simpl.
      by rewrite andb_false_r.
    - unfold added_traces, band_wanted, has_samples.
      rewrite Et. simpl. rewrite andb_false_r.
      unfold floor_part, cap_part. simpl.
      assert (has_column ({[ "ds" := ds; "yhat" := yhat ]} : DataFrame) "cap"
              = false) as -> by (by vm_compute).
      by destruct (Options.plot_cap o').
    - unfold initial_figure. by rewrite F'. }
  split.
  - destruct (Facts o F C) as (W & B & A & I).
    eexists _, _. split; [by apply plot_forecast_returns|].
    rewrite final_figure_data, A, I. split; [reflexivity|].
    assert (column ({[ "ds" := ds; "yhat" := yhat ]} : DataFrame) "ds" = ds)
      as Cx by (by vm_compute).
    assert (column ({[ "ds" := ds; "yhat" := yhat ]} : DataFrame) "yhat" = yhat)
      as Cy by (by vm_compute).
    unfold forecast_trace.
    cbn [Scatter.x Scatter.y Scatter.mode Scatter.line Scatter.name].
    by rewrite Cx, Cy.
  - destruct (Facts Options.default eq_refl eq_refl) as (W & B & A & I).
    eexists. split; [by apply plot_forecast_returns|].
    rewrite final_figure_data, A, I. split; [done|].
    unfold final_figure.
    rewrite (proj2 (call_error_None _ _ _ _) B), I. done.
Qed.

(** ** Layout and legend *)

(** The layout of the figure a call returns, from the figure's layout
    before the call. *)
Lemma final_figure_layout h m fcst o :
  call_error h m fcst o = None →
  Figure.layout (final_figure h m fcst o)
  = Layout.update (legend_kwargs o)
      (Layout.update (layout_kwargs o) (Figure.layout (initial_figure h o))).
Proof. intros E. unfold final_figure. by rewrite E. Qed.

(** C9: the figure a call returns has width and height as the options
    [width] and [height] say, the margins 60, 40, 60, 60 (left, right,
    top, bottom), the title text empty and at x = 0.5, the axis titles
    [xlabel] and [ylabel], and hover mode "x unified", whatever the
    other options and whatever layout a passed figure had; the defaults
    are 800 by 600, "ds" and "y".
    This is of a well-formed call with valid values: palette colours
    the library accepts, [width] and [height] at least 10. *)
Theorem layout_applied h m fcst o :
  well_formed h m fcst o = true →
  valid_values h o = true →
  band_columns_ok h m fcst o = true →
  (∃ f',
     returned_figure (plot_forecast m fcst o h) = Some f'
     ∧ Layout.width (Figure.layout f') = Some (Options.width o)
     ∧ Layout.height (Figure.layout f') = Some (Options.height o)
     ∧ Layout.margin (Figure.layout f')
       = Some (Margin.mk (Some 60) (Some 40) (Some 60) (Some 60))
     ∧ Layout.title (Figure.layout f') = Some (Title.mk (Some "") (Some 0.5%float))
     ∧ Layout.xaxis (Figure.layout f') = Some (Axis.mk (Some (Options.xlabel o)))
     ∧ Layout.yaxis (Figure.layout f') = Some (Axis.mk (Some (Options.ylabel o)))
     ∧ Layout.hovermode (Figure.layout f') = Some "x unified")
  ∧ Options.width Options.default = 800
  ∧ Options.height Options.default = 600
  ∧ Options.xlabel Options.default = "ds"
  ∧ Options.ylabel Options.default = "y".
Proof.
  intros W V B. split; [|done].
  exists (final_figure h m fcst o). split; [by apply plot_forecast_returns|].
  rewrite final_figure_layout by (by apply call_error_None).
  unfold legend_kwargs, layout_kwargs.
  destruct (Figure.layout (initial_figure h o))
    as [w ht mg ti xa ya hm lg sl].
  destruct (Options.include_legend o); simpl; repeat split;
    solve [ by destruct w | by destruct ht | by destruct hm
          | by destruct mg as [[[?|] [?|] [?|] [?|]]|]
          | by destruct ti as [[[?|] [?|]]|]
          | by destruct xa as [[[?|]]|]
          | by destruct ya as [[[?|]]|] ].
Qed.

(** X7: what the legend step does to the figure a call returns: with
    [include_legend] false, [showlegend] is false; with [include_legend]
    true, the legend is set horizontal, anchored at its bottom at
    y = 1.02, and [showlegend] is left as it was.
    This is of a well-formed call with valid values: palette colours
    the library accepts, [width] and [height] at least 10. *)
Lemma legend_step h m fcst o :
  well_formed h m fcst o = true →
  valid_values h o = true →
  band_columns_ok h m fcst o = true →
  ∃ f',
    returned_figure (plot_forecast m fcst o h) = Some f'
    ∧ (Options.include_legend o = false →
       Layout.showlegend (Figure.layout f') = Some false)
    ∧ (Options.include_legend o = true →
       (∃ lg, Layout.legend (Figure.layout f') = Some lg
              ∧ Legend.orientation lg = Some "h"
              ∧ Legend.yanchor lg = Some "bottom"
              ∧ Legend.y lg = Some 1.02%float)
       ∧ Layout.showlegend (Figure.layout f')
         = Layout.showlegend (Figure.layout (initial_figure h o))).
Proof.
  intros W V B.
  exists (final_figure h m fcst o). split; [by apply plot_forecast_returns|].
  rewrite final_figure_layout by (by apply call_error_None).
  unfold legend_kwargs, layout_kwargs.
  destruct (Figure.layout (initial_figure h o))
    as [w ht mg ti xa ya hm lg sl].
  destruct (Options.include_legend o); simpl.
  - split; [done|]. intros _. split; [|by destruct sl].
    by destruct lg as [[[?|] [?|] [?|]]|]; eexists.
  - split; [|done]. intros _. by destruct sl.
Qed.

(** ** Missing band columns *)

(** C10: the columns [yhat_upper] and [yhat_lower] are read only when
    the band is wanted.  With [uncertainty] false, or a sample count
    that is absent or not positive, a well-formed call returns whether
    or not the table has them.  With [uncertainty] true and a positive
    sample count, the call raises [KeyError] for [yhat_upper] when that
    column is missing, and for [yhat_lower] when only that one is.
    This is of a well-formed call with valid values: palette colours
    the library accepts, [width] and [height] at least 10. *)
Theorem band_columns_read_when_wanted h m fcst o :
  well_formed h m fcst o = true →
  valid_values h o = true →
  (Options.uncertainty o = false ∨ default 0 (Model.uncertainty_samples m) ≤ 0 →
   ∃ l, (plot_forecast m fcst o h).1 = Return l)
  ∧ (Options.uncertainty o = true →
     0 < default 0 (Model.uncertainty_samples m) →
     (table_of h fcst !! "yhat_upper" = None →
      (plot_forecast m fcst o h).1 = Raise (KeyError "yhat_upper"))
     ∧ (is_Some (table_of h fcst !! "yhat_upper") →
        table_of h fcst !! "yhat_lower" = None →
        (plot_forecast m fcst o h).1 = Raise (KeyError "yhat_lower"))).
Proof.
  intros W V. rewrite plot_forecast_run by done. simpl.
  unfold call_error, band_error. split.
  - intros Off. assert (band_wanted m o = false) as ->.
    { apply not_true_is_false. rewrite band_wanted_true.
      intros [U S]. destruct Off as [Off|Off]; [congruence | lia]. }
    by eexists.
  - intros U S. rewrite (proj2 (band_wanted_true m o)) by done. split.
    + by intros ->.
    + by intros [up ->] ->.
Qed.

(** ** The palette *)

(** The traces depend on the palette through the four roles only. *)
Lemma added_traces_roles h m fcst o o' :
  Options.plot_cap o' = Options.plot_cap o →
  Options.uncertainty o' = Options.uncertainty o →
  (∀ role, role ∈ roles →
     effective_palette h o' !! role = effective_palette h o !! role) →
  added_traces h m fcst o' = added_traces h m fcst o.
Proof.
  intros Pc Un R.
  assert (effective_palette h o' !! "forecast" = effective_palette h o !! "forecast")
    as Rf by (apply R; unfold roles; set_solver).
  assert (effective_palette h o' !! "observed" = effective_palette h o !! "observed")
    as Ro by (apply R; unfold roles; set_solver).
  assert (effective_palette h o' !! "cap" = effective_palette h o !! "cap")
    as Rc by (apply R; unfold roles; set_solver).
  assert (effective_palette h o' !! "uncertainty"
          = effective_palette h o !! "uncertainty")
    as Ru by (apply R; unfold roles; set_solver).
  unfold added_traces, band_wanted. rewrite Pc, Un.
  unfold forecast_trace, observed_part, observed_trace, cap_part, floor_part,
    capacity_trace, band_part, lower_trace.
  by rewrite Rf, Ro, Rc, Ru.
Qed.

(** C4: the effective palette is the default palette with the caller's
    [colors] merged on top, key by key: a key of [colors] has the
    caller's colour, any other key has the default one; so the four
    roles are always present.  It is the content of the dict that the
    call builds at a new location, and the forecast trace takes its
    colour from it.  With [colors = {"forecast": "#ABCDEF"}] the
    forecast role is "#ABCDEF" and the other three roles keep their
    defaults.  Keys other than the four roles are stored in the dict
    and do not affect the traces.
    This is of a well-formed call with valid values: palette colours
    the library accepts, [width] and [height] at least 10. *)
Theorem palette_override h m fcst o :
  well_formed h m fcst o = true →
  valid_values h o = true →
  let given := default ∅ (Options.colors o ≫= dict_at h) in
  let pal := effective_palette h o in
  (∀ key, pal !! key
          = match given !! key with
            | Some c => Some c
            | None => default_palette !! key
            end)
  ∧ (∀ role, role ∈ roles → is_Some (pal !! role))
  ∧ (∃ l, h !! l = None ∧ dict_at (plot_forecast m fcst o h).2 l = Some pal)
  ∧ (∀ f', resulting_figure o (plot_forecast m fcst o h) = Some f' →
       ∃ tr rest,
         added_traces h m fcst o = tr :: rest
         ∧ Figure.data f' = Figure.data (initial_figure h o) ++ tr :: rest
         ∧ Scatter.name tr = Some "Forecast"
         ∧ Scatter.line tr = Some (Line.mk (pal !! "forecast") (Some 2) None))
  ∧ (given = {[ "forecast" := "#ABCDEF" ]} →
       pal !! "forecast" = Some "#ABCDEF"
       ∧ pal !! "observed" = Some "#FF6F00"
       ∧ pal !! "cap" = Some "#000000"
       ∧ pal !! "uncertainty" = Some "rgba(0, 114, 178, 0.2)")
  ∧ (∀ o', Options.plot_cap o' = Options.plot_cap o →
       Options.uncertainty o' = Options.uncertainty o →
       (∀ role, role ∈ roles →
          effective_palette h o' !! role = pal !! role) →
       added_traces h m fcst o' = added_traces h m fcst o).
Proof.
  intros W V given pal. split; [|split; [|split; [|split; [|split]]]].
  - intros key. unfold pal, effective_palette, overrides. fold given.
    rewrite lookup_union. by destruct (given !! key), (default_palette !! key).
  - intros role R. by apply effective_palette_roles.
  - exists (palette_loc h fcst). split; [apply palette_loc_fresh|].
    rewrite plot_forecast_run by done. simpl.
    assert (figure_loc h fcst o ≠ palette_loc h fcst) as N.
    { unfold figure_loc. destruct (Options.fig o) as [l|] eqn:F; simpl.
      - pose proof (wf_fig _ _ _ _ (well_formed_inv _ _ _ _ W) l F) as G.
        intros ->. by rewrite palette_loc_fresh in G.
      - pose proof (fresh_lookup (with_palette h fcst o)) as Fr.
        intros En. rewrite En in Fr. unfold with_palette in Fr.
        by rewrite lookup_insert_eq in Fr. }
    unfold dict_at. rewrite lookup_insert_ne by done.
    unfold with_palette. by rewrite lookup_insert_eq.
  - intros f' ->%plot_forecast_resulting; [|done..].
    eexists _, _. split; [reflexivity|].
    split; [rewrite final_figure_data; reflexivity|]. done.
  - intros E. unfold pal, effective_palette, overrides. fold given. rewrite E.
    by vm_compute.
  - intros o'. apply added_traces_roles.
Qed.

(** ** The objects a call writes *)

Section frame.
Context (x : option loc) (h0 : heap).

Lemma framed_ret {A} (a : A) : framed x h0 (ret a).
Proof. by intros h K S. Qed.

(** Sequencing, with what is known of the value passed on. *)
Lemma framed_bind_val {A B} (P : A → Prop) (c : M A) (k : A → M B) :
  safe h0 c → framed x h0 c →
  (∀ h a, keeps h0 h → (c h).1 = Return a → P a) →
  (∀ a, P a → framed x h0 (k a)) →
  framed x h0 (bind c k).
Proof.
  intros Sc Fc Pc Fk h K S.
  specialize (Sc h K). specialize (Fc h K S). specialize (Pc h).
  unfold bind. destruct (c h) as [[a|e] h1]; simpl in *; [|done].
  apply Fk; auto.
Qed.

Lemma framed_bind {A B} (c : M A) (k : A → M B) :
  safe h0 c → framed x h0 c → (∀ a, framed x h0 (k a)) →
  framed x h0 (bind c k).
Proof. intros Sc Fc Fk. by apply (framed_bind_val (λ _, True)). Qed.

Lemma framed_unchanged {A} (c : M A) : (∀ h, (c h).2 = h) → framed x h0 c.
Proof. intros E h K S. by rewrite E. Qed.

Lemma framed_alloc ob : framed x h0 (alloc ob).
Proof.
  intros h K S l ob' E N. simpl.
  rewrite lookup_insert_ne; [by apply S|].
  intros <-. by rewrite (keeps_fresh _ _ K) in E.
Qed.

Lemma framed_DataFrame_copy df : framed x h0 (DataFrame_copy df).
Proof.
  intros h K S. unfold DataFrame_copy.
  destruct (h !! df) as [[]|]; try done. by apply framed_alloc.
Qed.

Lemma framed_dict_copy d : framed x h0 (dict_copy d).
Proof.
  intros h K S. unfold dict_copy.
  destruct (h !! d) as [[]|]; try done. by apply framed_alloc.
Qed.

Lemma framed_DataFrame_getitem df col : framed x h0 (DataFrame_getitem df col).
Proof.
  apply framed_unchanged. intros h. unfold DataFrame_getitem.
  destruct (h !! df) as [[t| |]|]; try done. by destruct (t !! col).
Qed.

Lemma framed_DataFrame_has_column df col :
  framed x h0 (DataFrame_has_column df col).
Proof.
  apply framed_unchanged. intros h. unfold DataFrame_has_column.
  by destruct (h !! df) as [[]|].
Qed.

Lemma framed_dict_getitem d key : framed x h0 (dict_getitem d key).
Proof.
  apply framed_unchanged. intros h. unfold dict_getitem.
  destruct (h !! d) as [[|p|]|]; try done. by destruct (p !! key).
Qed.

Lemma framed_dict_bool d : framed x h0 (dict_bool d).
Proof.
  apply framed_unchanged. intros h. unfold dict_bool.
  by destruct (h !! d) as [[]|].
Qed.

Lemma same_but_insert h l ob :
  same_but x h0 h → h0 !! l = None ∨ x = Some l →
  same_but x h0 (<[l := ob]> h).
Proof.
  intros S W l' ob' E N. rewrite lookup_insert_ne; [by apply S|].
  intros <-. destruct W; congruence.
Qed.

(** A write is framed when it goes to a new object or to [x]. *)
Lemma framed_dict_update d other :
  h0 !! d = None ∨ x = Some d → framed x h0 (dict_update d other).
Proof.
  intros W h K S. unfold dict_update.
  destruct (h !! d) as [[]|]; try done.
  destruct (h !! other) as [[]|]; try done.
  simpl. by apply same_but_insert.
Qed.

Lemma framed_add_trace fig trace :
  h0 !! fig = None ∨ x = Some fig → framed x h0 (add_trace fig trace).
Proof.
  intros W h K S. unfold add_trace.
  destruct (h !! fig) as [[]|]; try done. simpl. by apply same_but_insert.
Qed.

Lemma framed_update_layout fig kwargs :
  h0 !! fig = None ∨ x = Some fig → framed x h0 (update_layout fig kwargs).
Proof.
  intros W h K S. unfold update_layout.
  destruct (h !! fig) as [[]|]; try done.
  destruct (valid_size (Layout.width kwargs)); [|done].
  destruct (valid_size (Layout.height kwargs)); simpl;
    by apply same_but_insert.
Qed.

Lemma framed_go_Scatter trace : framed x h0 (go_Scatter trace).
Proof.
  apply framed_unchanged. intros h. unfold go_Scatter.
  by destruct (colours_valid trace).
Qed.

Ltac framed_steps :=
  repeat first
    [ apply framed_bind; [| |intros ?]
    | apply safe_bind; [|intros ?]
    | match goal with |- framed _ _ (if ?b then _ else _) => destruct b end
    | match goal with |- safe _ (if ?b then _ else _) => destruct b end
    | solve [ auto using framed_ret, framed_DataFrame_getitem,
                framed_DataFrame_has_column, framed_dict_getitem,
                framed_add_trace, framed_update_layout, framed_go_Scatter,
                safe_ret, safe_DataFrame_getitem, safe_DataFrame_has_column,
                safe_dict_getitem, safe_dict_bool, safe_add_trace,
                safe_update_layout, safe_go_Scatter ] ].

Lemma framed__add_forecast fig fcst palette :
  h0 !! fig = None ∨ x = Some fig →
  framed x h0 (_add_forecast fig fcst palette).
Proof. intros W. unfold _add_forecast. framed_steps. Qed.

Lemma framed__add_observed fig m palette :
  h0 !! fig = None ∨ x = Some fig →
  framed x h0 (_add_observed fig m palette).
Proof. intros W. unfold _add_observed. destruct (Model.history m); framed_steps. Qed.

Lemma framed__add_capacity fig m fcst palette :
  h0 !! fig = None ∨ x = Some fig →
  framed x h0 (_add_capacity fig m fcst palette).
Proof. intros W. unfold _add_capacity. framed_steps. Qed.

Lemma framed__add_uncertainty fig m fcst palette :
  h0 !! fig = None ∨ x = Some fig →
  framed x h0 (_add_uncertainty fig m fcst palette).
Proof. intros W. unfold _add_uncertainty. framed_steps. Qed.

End frame.

Lemma framed_plot_forecast h0 m fcst o :
  framed (Options.fig o) h0 (plot_forecast m fcst o).
Proof.
  unfold plot_forecast.
  apply (framed_bind_val _ _ (λ _, True));
    [apply safe_new_safe, safe_new_DataFrame_copy
    | apply framed_DataFrame_copy | done | intros fcst' _].
  apply (framed_bind_val _ _ (λ l, h0 !! l = None));
    [apply safe_new_safe, safe_new_dict_copy
    | apply framed_dict_copy
    | intros h l K; by apply safe_new_dict_copy
    | intros palette N].
  apply framed_bind; [| |intros _].
  { destruct (Options.colors o); [|apply safe_ret].
    apply safe_bind; [apply safe_dict_bool | intros []];
      [by apply safe_dict_update | apply safe_ret]. }
  { destruct (Options.colors o); [|apply framed_ret].
    apply framed_bind; [apply safe_dict_bool | apply framed_dict_bool|].
    intros []; [apply framed_dict_update; by left | apply framed_ret]. }
  apply (framed_bind_val _ _ (λ l, h0 !! l = None ∨ Options.fig o = Some l)).
  { destruct (Options.fig o);
      [apply safe_ret | apply safe_new_safe, safe_new_go_Figure]. }
  { destruct (Options.fig o); [apply framed_ret | apply framed_alloc]. }
  { intros h l K. destruct (Options.fig o) as [l'|].
    - intros [= ->]. by right.
    - intros E. left. by apply (safe_new_go_Figure h0 h K). }
  intros fig W.
  pose proof (safe__add_forecast h0 fig fcst' palette).
  pose proof (safe__add_observed h0 fig m palette).
  pose proof (safe__add_capacity h0 fig m fcst' palette).
  pose proof (safe__add_uncertainty h0 fig m fcst' palette).
  pose proof (framed__add_forecast _ h0 fig fcst' palette W).
  pose proof (framed__add_observed _ h0 fig m palette W).
  pose proof (framed__add_capacity _ h0 fig m fcst' palette W).
  pose proof (framed__add_uncertainty _ h0 fig m fcst' palette W).
  repeat first
    [ solve [ auto using framed_ret, framed_update_layout, safe_ret,
                safe_update_layout ]
    | match goal with |- framed _ _ (if ?b then _ else _) => destruct b end
    | match goal with |- safe _ (if ?b then _ else _) => destruct b end
    | apply framed_bind; [| |intros ?]
    | apply safe_bind; [|intros ?] ].
Qed.

(** X3: a call changes no object of the caller's heap other than the
    figure passed as [fig]: the [colors] dict, the history table, the
    forecast table, the module's palette and every other figure are
    after the call as they were before, whether the call returns or
    raises and whatever the arguments are. *)
Theorem only_the_passed_figure_changes h m fcst o l :
  is_Some (h !! l) →
  Options.fig o ≠ Some l →
  (plot_forecast m fcst o h).2 !! l = h !! l.
Proof.
  intros [ob E] N. rewrite E.
  apply (framed_plot_forecast h m fcst o h (keeps_refl h)); [|done|done].
  by intros l' ob' E' _.
Qed.

(** ** The traces in order *)

(** X1: the traces a call adds come in a fixed order: the forecast
    line, then the observed points, the capacity line, the floor line,
    and last the band's upper and lower bound, each present under its
    own condition.
    This is of a well-formed call with valid values: palette colours
    the library accepts, [width] and [height] at least 10. *)
Theorem trace_order h m fcst o :
  well_formed h m fcst o = true →
  valid_values h o = true →
  band_columns_ok h m fcst o = true →
  ∃ f' added,
    returned_figure (plot_forecast m fcst o h) = Some f'
    ∧ Figure.data f' = Figure.data (initial_figure h o) ++ added
    ∧ Scatter.name <$> added = expected_labels h m fcst o.
Proof.
  intros W V B. exists (final_figure h m fcst o), (added_traces h m fcst o).
  split; [by apply plot_forecast_returns|].
  split; [apply final_figure_data|].
  assert (Scatter.name <$> band_part (table_of h fcst) (effective_palette h o)
                             (band_wanted m o)
          = if band_wanted m o then [None; Some "Uncertainty interval"] else [])
    as Band.
  { unfold band_columns_ok in B. destruct (band_wanted m o); [|done].
    by rewrite band_part_wanted. }
  unfold added_traces, expected_labels.
  rewrite !fmap_app, Band. f_equal. f_equal.
  - destruct (Model.history m) as [l|] eqn:H; [|done].
    destruct (wf_history _ _ _ _ (well_formed_inv _ _ _ _ W) l H)
      as (th & E%table_at_Some & _).
    simpl. by rewrite E.
  - unfold cap_part, floor_part.
    by destruct (Options.plot_cap o), (has_column (table_of h fcst) "cap"),
      (default false (Model.logistic_floor m)),
      (has_column (table_of h fcst) "floor"), (band_wanted m o).
Qed.

(** ** The figure passed in, the figure made *)

Lemma figure_loc_passed h fcst o l : Options.fig o = Some l → figure_loc h fcst o = l.
Proof. intros E. unfold figure_loc. by rewrite E. Qed.

Lemma initial_figure_passed h o l f0 :
  Options.fig o = Some l → figure_at h l = Some f0 → initial_figure h o = f0.
Proof. intros E F. unfold initial_figure. rewrite E. simpl. by rewrite F. Qed.

Lemma added_traces_first h m fcst o :
  ∃ tr rest,
    added_traces h m fcst o = tr :: rest ∧ Scatter.name tr = Some "Forecast".
Proof. unfold added_traces. by eexists _, _. Qed.

(** X2: a figure passed as [fig] is updated in place and is the figure
    returned: the call returns the very object it was given, the traces
    the figure had are kept, in order, before the new ones, and the
    first new one is the forecast line.  Of the layout, the legend
    settings are kept when [include_legend] is false, and [showlegend]
    is kept when it is true.
    This is of a well-formed call with valid values: palette colours
    the library accepts, [width] and [height] at least 10. *)
Theorem passed_figure_is_extended h m fcst o l f0 :
  well_formed h m fcst o = true →
  valid_values h o = true →
  band_columns_ok h m fcst o = true →
  Options.fig o = Some l →
  figure_at h l = Some f0 →
  (plot_forecast m fcst o h).1 = Return l
  ∧ ∃ f' tr rest,
      figure_at (plot_forecast m fcst o h).2 l = Some f'
      ∧ Figure.data f' = Figure.data f0 ++ tr :: rest
      ∧ Scatter.name tr = Some "Forecast"
      ∧ (Options.include_legend o = false →
         Layout.legend (Figure.layout f') = Layout.legend (Figure.layout f0))
      ∧ (Options.include_legend o = true →
         Layout.showlegend (Figure.layout f')
         = Layout.showlegend (Figure.layout f0)).
Proof.
  intros W V B F I. pose proof (proj2 (call_error_None _ _ _ _) B) as Ok.
  rewrite plot_forecast_run by done. simpl.
  rewrite Ok, (figure_loc_passed _ _ _ _ F). split; [done|].
  destruct (added_traces_first h m fcst o) as (tr & rest & A & N).
  exists (final_figure h m fcst o), tr, rest.
  split; [apply figure_at_insert|].
  split; [by rewrite final_figure_data, (initial_figure_passed _ _ _ _ F I), A|].
  split; [done|].
  rewrite final_figure_layout, (initial_figure_passed _ _ _ _ F I) by done.
  unfold legend_kwargs, layout_kwargs.
  destruct (Figure.layout f0) as [w ht mg ti xa ya hm lg sl].
  destruct (Options.include_legend o); simpl.
  - split; [done|]. intros _. by destruct sl.
  - split; [|done]. intros _. by destruct lg.
Qed.

(** X9: without [fig] the figure returned is a new object, at a
    location the caller's heap did not use; it starts empty, so its
    traces are those the call adds, the forecast line first, and with
    [include_legend] false it has no legend settings.
    This is of a well-formed call with valid values: palette colours
    the library accepts, [width] and [height] at least 10. *)
Theorem new_figure_is_fresh h m fcst o :
  well_formed h m fcst o = true →
  valid_values h o = true →
  band_columns_ok h m fcst o = true →
  Options.fig o = None →
  ∃ l f' tr rest,
    (plot_forecast m fcst o h).1 = Return l
    ∧ h !! l = None
    ∧ figure_at (plot_forecast m fcst o h).2 l = Some f'
    ∧ Figure.data f' = tr :: rest
    ∧ Scatter.name tr = Some "Forecast"
    ∧ (Options.include_legend o = false →
       Layout.legend (Figure.layout f') = None).
Proof.
  intros W V B F. pose proof (proj2 (call_error_None _ _ _ _) B) as Ok.
  destruct (added_traces_first h m fcst o) as (tr & rest & A & N).
  exists (figure_loc h fcst o), (final_figure h m fcst o), tr, rest.
  rewrite plot_forecast_run by done. simpl. rewrite Ok.
  assert (initial_figure h o = Figure.mk [] Layout.empty) as I
    by (unfold initial_figure; by rewrite F).
  split; [done|]. split.
  { unfold figure_loc. rewrite F. simpl.
    pose proof (fresh_lookup (with_palette h fcst o)) as Fr.
    destruct (h !! fresh (dom (with_palette h fcst o))) as [ob|] eqn:E; [|done].
    by rewrite (with_palette_lookup _ _ _ _ _ E) in Fr. }
  split; [apply figure_at_insert|].
  split; [by rewrite final_figure_data, I, A|].
  split; [done|].
  intros L. rewrite final_figure_layout, I by done.
  unfold legend_kwargs. by rewrite L.
Qed.

(** X5: a call that raises in the band step leaves the figure it was
    passed half updated: the forecast, observed and capacity traces
    added before the band stay, and so does the band's upper bound when
    only [yhat_lower] is missing; the layout is as it was.
    This is of a well-formed call with valid values: palette colours
    the library accepts, [width] and [height] at least 10. *)
Theorem failed_call_leaves_traces h m fcst o l f0 :
  well_formed h m fcst o = true →
  valid_values h o = true →
  band_columns_ok h m fcst o = false →
  Options.fig o = Some l →
  figure_at h l = Some f0 →
  ∃ e f',
    (plot_forecast m fcst o h).1 = Raise e
    ∧ figure_at (plot_forecast m fcst o h).2 l = Some f'
    ∧ Figure.layout f' = Figure.layout f0
    ∧ Figure.data f'
      = Figure.data f0 ++ before_band h m fcst o
        ++ (if has_column (table_of h fcst) "yhat_upper"
            then [upper_trace (table_of h fcst)] else []).
Proof.
  intros W V B F I.
  destruct (call_error h m fcst o) as [e|] eqn:Err;
    [|apply call_error_None in Err; congruence].
  exists e, (final_figure h m fcst o).
  rewrite plot_forecast_run by done. simpl.
  rewrite Err, (figure_loc_passed _ _ _ _ F). split; [done|].
  split; [apply figure_at_insert|].
  unfold final_figure. rewrite Err, (initial_figure_passed _ _ _ _ F I). simpl.
  split; [done|]. f_equal. rewrite added_traces_split. f_equal.
  unfold band_columns_ok in B. unfold band_part, has_column in *.
  destruct (band_wanted m o); [|done].
  destruct (table_of h fcst !! "yhat_upper") as [up|] eqn:Eu;
    destruct (table_of h fcst !! "yhat_lower") as [lo|] eqn:El; simpl in *;
    rewrite ?bool_decide_eq_true_2 in * by (by eexists);
    rewrite ?bool_decide_eq_false_2 in * by (by intros []); done.
Qed.

(** ** Calling again *)

Lemma keeps_table_of h0 h m fcst o :
  keeps h0 h → well_formed h0 m fcst o = true → table_of h fcst = table_of h0 fcst.
Proof.
  intros K W%well_formed_inv. unfold table_of.
  pose proof (wf_fcst _ _ _ _ W) as E%table_at_Some.
  by rewrite (keeps_table_at _ _ _ _ K E), E.
Qed.

Lemma keeps_history h0 h m fcst o :
  keeps h0 h → well_formed h0 m fcst o = true →
  Model.history m ≫= table_at h = Model.history m ≫= table_at h0.
Proof.
  intros K W%well_formed_inv.
  destruct (Model.history m) as [l|] eqn:H; [|done]. simpl.
  destruct (wf_history _ _ _ _ W l H) as (th & E%table_at_Some & _).
  by rewrite (keeps_table_at _ _ _ _ K E), E.
Qed.

Lemma keeps_added_traces h0 h m fcst o :
  keeps h0 h → well_formed h0 m fcst o = true →
  added_traces h m fcst o = added_traces h0 m fcst o.
Proof.
  intros K W. unfold added_traces, effective_palette.
  by rewrite (keeps_table_of h0 h m fcst o), (keeps_overrides h0 h m fcst o),
    (keeps_history h0 h m fcst o).
Qed.

(** The layout a call makes does not change when the call is made
    again. *)
Lemma layout_again o l :
  let once := Layout.update (legend_kwargs o) (Layout.update (layout_kwargs o) l) in
  Layout.update (legend_kwargs o) (Layout.update (layout_kwargs o) once) = once.
Proof.
  destruct l as [w ht mg ti xa ya hm lg sl]. unfold legend_kwargs, layout_kwargs.
  destruct (Options.include_legend o); unfold Layout.update; simpl; f_equal;
    solve [ by destruct w | by destruct ht | by destruct hm | by destruct sl
          | by destruct mg as [[[?|] [?|] [?|] [?|]]|]
          | by destruct ti as [[[?|] [?|]]|]
          | by destruct xa as [[[?|]]|]
          | by destruct ya as [[[?|]]|]
          | by destruct lg as [[[?|] [?|] [?|]]|] ].
Qed.

(** X6: a second call with the same arguments on the figure the first
    call returned appends the same traces once more, after those of the
    first call, and leaves the layout as the first call made it.
    This is of a well-formed call with valid values: palette colours
    the library accepts, [width] and [height] at least 10. *)
Theorem second_call_appends_again h m fcst o l :
  well_formed h m fcst o = true →
  valid_values h o = true →
  band_columns_ok h m fcst o = true →
  Options.fig o = Some l →
  ∃ f1 f2 added,
    returned_figure (plot_forecast m fcst o h) = Some f1
    ∧ returned_figure
        (plot_forecast m fcst o (plot_forecast m fcst o h).2) = Some f2
    ∧ Figure.data f1 = Figure.data (initial_figure h o) ++ added
    ∧ Figure.data f2 = Figure.data (initial_figure h o) ++ added ++ added
    ∧ added ≠ []
    ∧ Figure.layout f2 = Figure.layout f1.
Proof.
  intros W V B F. pose proof (proj2 (call_error_None _ _ _ _) B) as Ok.
  pose proof (plot_forecast_keeps h m fcst o) as K.
  set (h1 := (plot_forecast m fcst o h).2) in *.
  pose proof (keeps_well_formed _ _ _ _ _ K W) as W1.
  pose proof (keeps_table_of _ _ _ _ _ K W) as T1.
  assert (call_error h1 m fcst o = None) as Ok1
    by (unfold call_error; by rewrite T1).
  assert (band_columns_ok h1 m fcst o = true) as B1 by (by apply call_error_None).
  assert (valid_values h1 o = true) as V1.
  { revert V. unfold valid_values, palette_valid, effective_palette.
    by rewrite (keeps_overrides h h1 m fcst o). }
  assert (initial_figure h1 o = final_figure h m fcst o) as I1.
  { apply (initial_figure_passed _ _ l); [done|].
    unfold h1. rewrite plot_forecast_run by done. simpl.
    rewrite (figure_loc_passed _ _ _ _ F). apply figure_at_insert. }
  exists (final_figure h m fcst o), (final_figure h1 m fcst o),
    (added_traces h m fcst o).
  split; [by apply plot_forecast_returns|].
  split; [by apply plot_forecast_returns|].
  split; [apply final_figure_data|].
  split.
  { rewrite final_figure_data, I1, final_figure_data.
    by rewrite (keeps_added_traces h h1), <- app_assoc. }
  split.
  { destruct (added_traces_first h m fcst o) as (tr & rest & -> & _). done. }
  rewrite !final_figure_layout, I1, final_figure_layout by done.
  apply layout_again.
Qed.

(** ** An empty [colors] *)

(** X8: an empty [colors] dict counts as no [colors]: the call gives the
    same result and leaves the same heap as the call without
    [colors]. *)
Theorem empty_colors_as_none h m fcst o lc :
  well_formed h m fcst o = true →
  Options.colors o = Some lc →
  dict_at h lc = Some ∅ →
  plot_forecast m fcst o h = plot_forecast m fcst (without_colors o) h.
Proof.
  unfold well_formed. rewrite !andb_true_iff.
  intros ((((Pal & T) & _) & _) & Co) C E.
  unfold is_table_with in T.
  destruct (table_at h fcst) as [t|] eqn:Et; [|done].
  assert (effective_palette h (without_colors o) = effective_palette h o) as P.
  { unfold effective_palette, overrides. simpl. by rewrite C; simpl; rewrite E. }
  assert (with_palette h fcst (without_colors o) = with_palette h fcst o) as Wp
    by (unfold with_palette; by rewrite P).
  unfold plot_forecast.
  erewrite (run_copies _ h fcst o t) by done.
  erewrite (run_copies _ h fcst (without_colors o) t) by done.
  by rewrite Wp.
Qed.

(** ** A table without a required column *)

(** X4: on a table without [ds], or without [yhat], a call raises
    [KeyError] for the first of the two that is missing, before any
    trace is added: every object of the caller's heap, the figure
    passed as [fig] included, is after the call as it was before. *)
Theorem missing_required_column h m fcst o t :
  palette_ok h = true →
  fig_ok h o = true →
  colors_ok h o = true →
  table_at h fcst = Some t →
  t !! "ds" = None ∨ t !! "yhat" = None →
  (plot_forecast m fcst o h).1
  = Raise (KeyError (if t !! "ds" is None then "ds" else "yhat"))
  ∧ ∀ l, is_Some (h !! l) → (plot_forecast m fcst o h).2 !! l = h !! l.
Proof.
  intros P F C T Missing.
  assert (table_of h fcst = t) as Eq by (unfold table_of; by rewrite T).
  unfold plot_forecast. erewrite run_copies by done.
  set (h2 := with_palette h fcst o).
  assert (h2 !! copy_loc h = Some (DataFrameObj t)) as Ht.
  { unfold h2, with_palette, with_copy.
    rewrite lookup_insert_ne by (apply not_eq_sym, palette_loc_copy_loc).
    by rewrite lookup_insert_eq, Eq. }
  assert (∀ l, is_Some (h !! l) → h2 !! l = h !! l) as Same2.
  { intros l [ob E]. rewrite E. by apply with_palette_lookup. }
  assert (∃ lg f0,
            match Options.fig o with
            | Some fig => ret fig
            | None => go_Figure
            end h2 = (Return lg, <[lg := FigureObj f0]> h2)
            ∧ lg ≠ copy_loc h
            ∧ ∀ l, is_Some (h !! l) → <[lg := FigureObj f0]> h2 !! l = h !! l)
    as (lg & f0 & Fig & N & Same).
  { unfold fig_ok in F. destruct (Options.fig o) as [lg|]; simpl in F.
    - apply bool_decide_eq_true in F as [f0 G%figure_at_Some].
      pose proof (with_palette_lookup h fcst o _ _ G) as G2. fold h2 in G2.
      exists lg, f0. split; [unfold ret; by rewrite insert_id|].
      split; [intros ->; by rewrite copy_loc_fresh in G|].
      intros l S. rewrite insert_id by done. by apply Same2.
    - pose proof (fresh_lookup h2) as Fr.
      exists (fresh (dom h2)), (Figure.mk [] Layout.empty).
      split; [reflexivity|]. split; [intros E; rewrite E in Fr; congruence|].
      intros l [ob E]. rewrite lookup_insert_ne.
      + by rewrite E; apply with_palette_lookup.
      + intros En. rewrite <- En in E.
        pose proof (with_palette_lookup h fcst o _ _ E) as E2. fold h2 in E2.
        congruence. }
  erewrite bind_Return by apply Fig.
  destruct (t !! "ds") as [ds|] eqn:Eds.
  - destruct Missing as [|Ey]; [done|].
    erewrite bind_Raise; [split; [reflexivity | exact Same]|].
    unfold _add_forecast.
    erewrite bind_Return by (by eapply step_getitem).
    by erewrite bind_Raise by (by eapply step_getitem_missing).
  - erewrite bind_Raise; [split; [reflexivity | exact Same]|].
    unfold _add_forecast.
    by erewrite bind_Raise by (by eapply step_getitem_missing).
Qed.

(** ** A history without a column *)

(** The figure step, line 176, on the heap with the two copies. *)
Lemma run_figure h fcst o :
  fig_ok h o = true →
  let h2 := with_palette h fcst o in
  let lg := figure_loc h fcst o in
  match Options.fig o with
  | Some fig => ret fig
  | None => go_Figure
  end h2 = (Return lg, <[lg := FigureObj (initial_figure h o)]> h2)
  ∧ lg ≠ copy_loc h ∧ lg ≠ palette_loc h fcst
  ∧ ∀ l tb, h !! l = Some (DataFrameObj tb) → lg ≠ l.
Proof.
  intros F h2 lg. unfold lg, figure_loc, initial_figure, fig_ok in *.
  assert (is_Some (h2 !! copy_loc h)) as Sc.
  { unfold h2, with_palette, with_copy.
    rewrite lookup_insert_ne by (apply not_eq_sym, palette_loc_copy_loc).
    by rewrite lookup_insert_eq. }
  assert (is_Some (h2 !! palette_loc h fcst)) as Sp.
  { unfold h2, with_palette. by rewrite lookup_insert_eq. }
  destruct (Options.fig o) as [l|]; simpl in *.
  - apply bool_decide_eq_true in F as [f0 G]. rewrite G. simpl.
    apply figure_at_Some in G.
    pose proof (with_palette_lookup h fcst o _ _ G) as G2. fold h2 in G2.
    split; [unfold ret; by rewrite insert_id|].
    split; [intros ->; by rewrite copy_loc_fresh in G|].
    split; [intros ->; by rewrite palette_loc_fresh in G|].
    intros l' tb E ->. congruence.
  - pose proof (fresh_lookup h2) as Fr. fold h2.
    split; [reflexivity|].
    split; [intros E; rewrite E in Fr; destruct Sc; congruence|].
    split; [intros E; rewrite E in Fr; destruct Sp; congruence|].
    intros l' tb E En. rewrite En in Fr.
    pose proof (with_palette_lookup h fcst o _ _ E) as E2. fold h2 in E2.
    congruence.
Qed.

(** X10: when the model's [history] is a table without [ds], or
    without [y], a call raises [KeyError] for the first of the two that
    is missing, after the forecast line has been added: a figure passed
    as [fig] is left with that one trace more and its layout as it
    was.  The palette colours are to be colours the library accepts:
    the forecast line is built before the history is read. *)
Theorem history_without_column h m fcst o lh th :
  palette_ok h = true →
  is_table_with h fcst ["ds"; "yhat"] = true →
  fig_ok h o = true →
  colors_ok h o = true →
  palette_valid h o = true →
  Model.history m = Some lh →
  table_at h lh = Some th →
  th !! "ds" = None ∨ th !! "y" = None →
  (plot_forecast m fcst o h).1
  = Raise (KeyError (if th !! "ds" is None then "ds" else "y"))
  ∧ ∀ l f0, Options.fig o = Some l → figure_at h l = Some f0 →
      ∃ tr,
        figure_at (plot_forecast m fcst o h).2 l
        = Some (Figure.mk (Figure.data f0 ++ [tr]) (Figure.layout f0))
        ∧ Scatter.name tr = Some "Forecast".
Proof.
  intros P T F C V H Th Missing.
  destruct (is_table_with_inv _ _ _ _ T) as (t & Et & Sds & Sy).
  assert (table_of h fcst = t) as Eq
    by (unfold table_of, table_at; by rewrite Et).
  destruct (run_figure h fcst o F) as (Fig & N1 & N2 & N3).
  set (h2 := with_palette h fcst o) in *.
  set (lg := figure_loc h fcst o) in *.
  set (pal := effective_palette h o).
  assert (h2 !! copy_loc h = Some (DataFrameObj t)) as Ht.
  { unfold h2, with_palette, with_copy.
    rewrite lookup_insert_ne by (apply not_eq_sym, palette_loc_copy_loc).
    by rewrite lookup_insert_eq, Eq. }
  assert (h2 !! palette_loc h fcst = Some (DictObj pal)) as Hp.
  { unfold h2, with_palette. by rewrite lookup_insert_eq. }
  assert (h2 !! lh = Some (DataFrameObj th)) as Hh
    by (by apply with_palette_lookup, table_at_Some).
  assert (lg ≠ lh) as N4 by (by eapply N3, table_at_Some).
  assert (is_Some (pal !! "forecast")) as Rf
    by (apply effective_palette_roles, elem_of_cons; by left).
  assert (∀ c, pal !! "forecast" = Some c → valid_color c = true) as Vf
    by (intros c; apply palette_valid_role; [done | apply elem_of_cons; by left]).
  assert (∃ e, e = KeyError (if th !! "ds" is None then "ds" else "y")
            ∧ _add_observed lg m (palette_loc h fcst)
                (<[lg := FigureObj (push (initial_figure h o)
                                      [forecast_trace t pal])]> h2)
              = (Raise e, <[lg := FigureObj (push (initial_figure h o)
                                              [forecast_trace t pal])]> h2))
    as (e & Ee & Obs).
  { eexists. split; [reflexivity|]. unfold _add_observed. rewrite H.
    destruct (th !! "ds") as [ds|] eqn:Eds.
    - destruct Missing as [|Ey]; [done|].
      erewrite bind_Return by (by eapply step_getitem).
      by erewrite bind_Raise by (by eapply step_getitem_missing).
    - by erewrite bind_Raise by (by eapply step_getitem_missing). }
  assert (plot_forecast m fcst o h
          = (Raise e, <[lg := FigureObj (push (initial_figure h o)
                                           [forecast_trace t pal])]> h2)) as Run.
  { unfold plot_forecast.
    erewrite run_copies by (done || by apply table_at_Some).
    erewrite bind_Return by apply Fig.
    erewrite bind_Return by (by eapply run__add_forecast).
    by erewrite bind_Raise by apply Obs. }
  rewrite Run, Ee. split; [done|].
  intros l f0 El Ef. exists (forecast_trace t pal). split; [|done].
  simpl. unfold lg. rewrite (figure_loc_passed _ _ _ _ El), figure_at_insert.
  by rewrite (initial_figure_passed _ _ _ _ El Ef).
Qed.

(** ** The time axis *)

(** X11: every trace a call adds over the forecast table has the
    table's [ds] column as its x values, so the forecast line, the
    capacity lines and the band share one time axis; only the observed
    points have their own, the history's [ds].
    This is of a well-formed call with valid values: palette colours
    the library accepts, [width] and [height] at least 10. *)
Theorem shared_time_axis h m fcst o :
  well_formed h m fcst o = true →
  valid_values h o = true →
  band_columns_ok h m fcst o = true →
  ∃ f' added,
    returned_figure (plot_forecast m fcst o h) = Some f'
    ∧ Figure.data f' = Figure.data (initial_figure h o) ++ added
    ∧ ∀ tr, tr ∈ added →
        if decide (Scatter.name tr = Some "Observed data points")
        then ∃ l th, Model.history m = Some l ∧ table_at h l = Some th
                     ∧ th !! "ds" = Some (Scatter.x tr)
        else table_of h fcst !! "ds" = Some (Scatter.x tr).
Proof.
  intros W V B. exists (final_figure h m fcst o), (added_traces h m fcst o).
  split; [by apply plot_forecast_returns|].
  split; [apply final_figure_data|].
  pose proof (well_formed_inv _ _ _ _ W) as Facts.
  destruct (wf_ds _ _ _ _ Facts) as [ds Eds].
  assert (column (table_of h fcst) "ds" = ds) as Cds
    by (unfold column; by rewrite Eds).
  intros tr E. apply elem_of_added_traces in E.
  destruct E as [->|[(th & H & ->)|[(_ & _ & ->)|[(_ & _ & _ & ->)|E]]]];
    simpl.
  - by rewrite Cds.
  - destruct (Model.history m) as [l|] eqn:Hl; [|done]. simpl in H.
    exists l, th. split; [done|]. split; [done|].
    destruct (wf_history _ _ _ _ Facts l Hl) as (th' & H' & [x Ex] & _).
    apply table_at_Some in H. assert (th' = th) as -> by congruence.
    unfold column. by rewrite Ex.
  - by rewrite Cds.
  - by rewrite Cds.
  - unfold band_part in E. destruct (band_wanted m o); [|by apply elem_of_nil in E].
    destruct (table_of h fcst !! "yhat_upper"); [|by apply elem_of_nil in E].
    destruct (table_of h fcst !! "yhat_lower");
      rewrite ?elem_of_cons, elem_of_nil in E;
      destruct E as [->|[->|[]]] || destruct E as [->|[]]; simpl; by rewrite Cds.
Qed.

End program.

(** ** Sample runs

    The sample runs take [hex_or_functional] as the colour test. *)

#[local] Existing Instance hex_or_functional.

Example sample_colours :
  valid_color "#0D47A1" = true ∧ valid_color "rgba(0, 114, 178, 0.2)" = true
  ∧ valid_color "#ABCDEF" = true ∧ valid_color "rgb(1,2)" = false
  ∧ valid_color "#12345" = false ∧ valid_color "no colour" = false.
Proof. by vm_compute. Qed.

Example sample_valid_values :
  valid_values Sample.heap0 Sample.with_colors = true.
Proof. vm_compute. reflexivity. Qed.

Example sample_well_formed :
  well_formed Sample.heap0 Sample.fitted_model Sample.full Sample.with_colors = true.
Proof. vm_compute. reflexivity. Qed.

Example sample_returns_six_traces :
  length <$> (Figure.data <$> returned_figure
    (plot_forecast Sample.fitted_model Sample.full Sample.with_colors Sample.heap0))
  = Some 6%nat.
Proof. vm_compute. reflexivity. Qed.

(** Values the library refuses: a width below 10 makes the layout
    step raise, after the traces are added and with the layout as it
    was; a string that is no colour for the band makes the lower bound
    raise, after the upper bound is added. *)
Example narrow_call_raises :
  well_formed Edge.heap2 Sample.bare_model Sample.plain Edge.narrow = true
  ∧ (plot_forecast Sample.bare_model Sample.plain Edge.narrow Edge.heap2).1
    = Raise ValueError
  ∧ (λ f, (Scatter.name <$> Figure.data f, Figure.layout f))
      <$> figure_at
            (plot_forecast Sample.bare_model Sample.plain Edge.narrow Edge.heap2).2
            Sample.empty_figure
    = Some ([Some "Forecast"], Layout.empty).
Proof. vm_compute. done. Qed.

(** A height below 10, with a width the library takes: the layout step
    raises once the width is set. *)
Example flat_call_raises :
  (plot_forecast Sample.bare_model Sample.plain Edge.flat Edge.heap2).1
  = Raise ValueError
  ∧ Figure.layout
      <$> figure_at
            (plot_forecast Sample.bare_model Sample.plain Edge.flat Edge.heap2).2
            Sample.empty_figure
    = Some (Layout.mk (Some 800) None None None None None None None None).
Proof. vm_compute. done. Qed.

Example no_colour_call_raises :
  well_formed Edge.heap2 Sample.fitted_model Sample.full Edge.with_no_colour = true
  ∧ (plot_forecast Sample.fitted_model Sample.full Edge.with_no_colour
       Edge.heap2).1 = Raise ValueError
  ∧ (λ f, (Scatter.name <$> Figure.data f, Figure.layout f))
      <$> figure_at
            (plot_forecast Sample.fitted_model Sample.full Edge.with_no_colour
               Edge.heap2).2 Sample.empty_figure
    = Some ([Some "Forecast"; Some "Observed data points";
             Some "Maximum capacity"; Some "Minimum capacity"; None],
            Layout.empty).
Proof. vm_compute. done. Qed.

Lemma uncertainty_band_witness :
  ∃ f' pre up lo,
    returned_figure
      (plot_forecast Sample.fitted_model Sample.full Sample.with_colors Sample.heap0)
    = Some f'
    ∧ Figure.data f' = pre ++ [up; lo]
    ∧ Scatter.name lo = Some "Uncertainty interval".
Proof.
  destruct (uncertainty_band Sample.heap0 Sample.fitted_model Sample.full
              Sample.with_colors) as (f' & added & R & D & _ & Band).
  - vm_compute. reflexivity.
  - vm_compute. reflexivity.
  - vm_compute. reflexivity.
  - destruct Band as (pre & up & lo & E & _ & _ & _ & _ & _ & _ & _ & _ & _
                        & _ & _ & _ & _ & _ & N).
    + reflexivity.
    + reflexivity.
    + exists f', pre, up, lo. rewrite D, E. simpl. auto.
Defined.

(** C1 as stated fails: with [uncertainty] true and a positive sample
    count, on a well-formed call with valid values whose table has no
    [yhat_upper] the call raises and the figure that was passed in has
    no band trace. *)
Lemma uncertainty_band_not_added :
  well_formed Sample.heap0 Sample.sampling_model Sample.plain
    Sample.on_empty_figure = true
  ∧ valid_values Sample.heap0 Sample.on_empty_figure = true
  ∧ Options.uncertainty Sample.on_empty_figure = true
  ∧ 0 < default 0 (Model.uncertainty_samples Sample.sampling_model)
  ∧ (plot_forecast Sample.sampling_model Sample.plain Sample.on_empty_figure
       Sample.heap0).1 = Raise (KeyError "yhat_upper")
  ∧ ∃ f', resulting_figure Sample.on_empty_figure
            (plot_forecast Sample.sampling_model Sample.plain
               Sample.on_empty_figure Sample.heap0) = Some f'
          ∧ forallb (λ tr, negb (is_band_trace tr)) (Figure.data f') = true.
Proof.
  split; [vm_compute; reflexivity|].
  split; [vm_compute; reflexivity|].
  split; [reflexivity|].
  split; [reflexivity|].
  split; [vm_compute; reflexivity|].
  eexists. split; vm_compute; reflexivity.
Qed.

Lemma capacity_lines_witness :
  ∃ f' tr,
    resulting_figure Sample.with_colors
      (plot_forecast Sample.fitted_model Sample.full Sample.with_colors Sample.heap0)
    = Some f'
    ∧ tr ∈ Figure.data f'
    ∧ Scatter.name tr = Some "Maximum capacity".
Proof.
  destruct (capacity_lines Sample.heap0 Sample.fitted_model Sample.full
              Sample.with_colors) as [R Spec].
  - vm_compute. reflexivity.
  - vm_compute. reflexivity.
  - destruct R as [f' R].
    + vm_compute. reflexivity.
    + destruct (Spec f' (returned_resulting _ _ _ R)) as (added & D & [_ Cap] & _).
      destruct Cap as (tr & E & N).
      * split; [reflexivity|]. vm_compute. eexists. reflexivity.
      * exists f', tr. split; [by apply returned_resulting|].
        split; [|exact N]. rewrite D. apply elem_of_app. by right.
Defined.

Lemma observed_points_witness :
  ∃ f' tr,
    resulting_figure Sample.with_colors
      (plot_forecast Sample.fitted_model Sample.full Sample.with_colors Sample.heap0)
    = Some f'
    ∧ tr ∈ Figure.data f'
    ∧ Scatter.name tr = Some "Observed data points".
Proof.
  destruct (observed_points Sample.heap0 Sample.fitted_model Sample.full
              Sample.with_colors) as (R & _ & Spec).
  - vm_compute. reflexivity.
  - vm_compute. reflexivity.
  - destruct R as [f' R].
    + vm_compute. reflexivity.
    + destruct (Spec f' (returned_resulting _ _ _ R)) as (added & D & [_ Obs] & _).
      destruct Obs as (tr & E & N).
      * by eexists.
      * exists f', tr. split; [by apply returned_resulting|].
        split; [|exact N]. rewrite D. apply elem_of_app. by right.
Defined.

Lemma forecast_only_witness :
  ∃ f' tr,
    returned_figure
      (plot_forecast (Model.mk None None None) Sample.plain Options.default
         Sample.heap0) = Some f'
    ∧ Figure.data f' = [tr]
    ∧ Scatter.name tr = Some "Forecast".
Proof.
  destruct (forecast_only Sample.heap0 Sample.plain Options.default
              [Timestamp 1; Timestamp 2; Timestamp 3]
              [Number 1; Number 2; Number 3])
    as [(f' & tr & R & D & _ & _ & _ & _ & N) _].
  - vm_compute. reflexivity.
  - vm_compute. reflexivity.
  - reflexivity.
  - reflexivity.
  - vm_compute. reflexivity.
  - vm_compute. reflexivity.
  - exists f', tr. split; [exact R|]. split; [exact D | exact N].
Defined.

Lemma layout_applied_witness :
  ∃ f',
    returned_figure
      (plot_forecast Sample.fitted_model Sample.full Sample.with_colors Sample.heap0)
    = Some f'
    ∧ Layout.width (Figure.layout f') = Some 800
    ∧ Layout.height (Figure.layout f') = Some 600.
Proof.
  destruct (layout_applied Sample.heap0 Sample.fitted_model Sample.full
              Sample.with_colors) as [(f' & R & Wd & Ht & _) _].
  - vm_compute. reflexivity.
  - vm_compute. reflexivity.
  - vm_compute. reflexivity.
  - exists f'. split; [exact R|]. split; [exact Wd | exact Ht].
Defined.

(** C6 fails on a figure whose legend is hidden, such as one that an
    earlier call with the default options returned: with
    [include_legend] true the legend of the returned figure is set
    horizontal but stays hidden. *)
Lemma legend_stays_hidden :
  well_formed Sample.heap0 Sample.bare_model Sample.plain
    Sample.with_legend_on_hidden = true
  ∧ Options.include_legend Sample.with_legend_on_hidden = true
  ∧ ∃ f',
      returned_figure
        (plot_forecast Sample.bare_model Sample.plain
           Sample.with_legend_on_hidden Sample.heap0) = Some f'
      ∧ Layout.legend (Figure.layout f')
        = Some (Legend.mk (Some "h") (Some "bottom") (Some 1.02%float))
      ∧ Layout.showlegend (Figure.layout f') = Some false.
Proof.
  split; [vm_compute; reflexivity|]. split; [reflexivity|].
  eexists. split; [vm_compute; reflexivity|]. split; reflexivity.
Qed.

(** The figure of [legend_stays_hidden] is what a call with the default
    options returns, as far as the legend goes. *)
Example default_call_hides_legend :
  Layout.showlegend <$> (Figure.layout <$> returned_figure
    (plot_forecast Sample.bare_model Sample.plain Options.default Sample.heap0))
  = Some (Some false).
Proof. vm_compute. reflexivity. Qed.

Lemma band_columns_read_when_wanted_witness :
  (∃ l, (plot_forecast Sample.bare_model Sample.plain Options.default
           Sample.heap0).1 = Return l)
  ∧ (plot_forecast Sample.sampling_model Sample.plain Options.default
       Sample.heap0).1 = Raise (KeyError "yhat_upper").
Proof.
  split.
  - apply (band_columns_read_when_wanted Sample.heap0 Sample.bare_model
             Sample.plain Options.default).
    + vm_compute. reflexivity.
    + vm_compute. reflexivity.
    + right. vm_compute. discriminate.
  - apply (band_columns_read_when_wanted Sample.heap0 Sample.sampling_model
             Sample.plain Options.default).
    + vm_compute. reflexivity.
    + vm_compute. reflexivity.
    + reflexivity.
    + reflexivity.
    + vm_compute. reflexivity.
Defined.

Lemma palette_override_witness :
  ∃ f' tr rest,
    returned_figure
      (plot_forecast Sample.fitted_model Sample.full Sample.with_forecast_colour
         Sample.heap0) = Some f'
    ∧ Figure.data f' = tr :: rest
    ∧ Scatter.line tr = Some (Line.mk (Some "#ABCDEF") (Some 2) None)
    ∧ effective_palette Sample.heap0 Sample.with_forecast_colour !! "observed"
      = Some "#FF6F00"
    ∧ effective_palette Sample.heap0 Sample.with_forecast_colour !! "cap"
      = Some "#000000"
    ∧ effective_palette Sample.heap0 Sample.with_forecast_colour !! "uncertainty"
      = Some "rgba(0, 114, 178, 0.2)".
Proof.
  destruct (palette_override Sample.heap0 Sample.fitted_model Sample.full
              Sample.with_forecast_colour) as (_ & _ & _ & Run & Only & _).
  - vm_compute. reflexivity.
  - vm_compute. reflexivity.
  - destruct Only as (Fc & Ob & Cap & Un).
    + vm_compute. reflexivity.
    + assert (∃ f', returned_figure
                      (plot_forecast Sample.fitted_model Sample.full
                         Sample.with_forecast_colour Sample.heap0) = Some f')
        as [f' R] by (vm_compute; eexists; reflexivity).
      destruct (Run f' (returned_resulting _ _ _ R))
        as (tr & rest & _ & D & _ & Ln).
      exists f', tr, rest. split; [exact R|].
      split; [exact D|]. split; [by rewrite Ln, Fc|].
      split; [exact Ob|]. split; [exact Cap | exact Un].
Defined.

Lemma default_palette_unchanged_witness :
  (plot_forecast Sample.fitted_model Sample.full Sample.with_colors
     Sample.heap0).2 !! DEFAULT_PALETTE = Some (DictObj default_palette)
  ∧ effective_palette
      (plot_forecast Sample.fitted_model Sample.full Sample.with_colors
         Sample.heap0).2 Options.default
    = effective_palette Sample.heap0 Options.default.
Proof.
  destruct (default_palette_unchanged Sample.heap0 Sample.fitted_model Sample.full
              Sample.with_colors default_palette Sample.bare_model Sample.plain
              Options.default) as [Same Later].
  - reflexivity.
  - split; [exact Same|]. apply Later. vm_compute. reflexivity.
Defined.

Lemma only_the_passed_figure_changes_witness :
  (plot_forecast Sample.fitted_model Sample.full Sample.with_colors
     Sample.heap0).2 !! Sample.colors = Sample.heap0 !! Sample.colors.
Proof.
  apply only_the_passed_figure_changes.
  - vm_compute. by eexists.
  - discriminate.
Defined.

Lemma trace_order_witness :
  ∃ f',
    returned_figure
      (plot_forecast Sample.fitted_model Sample.full Sample.with_colors Sample.heap0)
    = Some f'
    ∧ Scatter.name <$> Figure.data f'
      = [Some "Forecast"; Some "Observed data points"; Some "Maximum capacity";
         Some "Minimum capacity"; None; Some "Uncertainty interval"].
Proof.
  destruct (trace_order Sample.heap0 Sample.fitted_model Sample.full
              Sample.with_colors) as (f' & added & R & D & L).
  - vm_compute. reflexivity.
  - vm_compute. reflexivity.
  - vm_compute. reflexivity.
  - exists f'. split; [exact R|]. rewrite D, fmap_app, L. vm_compute. reflexivity.
Defined.

Lemma passed_figure_is_extended_witness :
  (plot_forecast Sample.bare_model Sample.plain Sample.with_legend_on_hidden
     Sample.heap0).1 = Return Sample.hidden_legend.
Proof.
  apply (passed_figure_is_extended Sample.heap0 Sample.bare_model Sample.plain
           Sample.with_legend_on_hidden Sample.hidden_legend
           Sample.hidden_legend_figure).
  - vm_compute. reflexivity.
  - vm_compute. reflexivity.
  - vm_compute. reflexivity.
  - reflexivity.
  - vm_compute. reflexivity.
Defined.

Lemma new_figure_is_fresh_witness :
  ∃ l,
    (plot_forecast Sample.fitted_model Sample.full Sample.with_colors
       Sample.heap0).1 = Return l
    ∧ Sample.heap0 !! l = None.
Proof.
  destruct (new_figure_is_fresh Sample.heap0 Sample.fitted_model Sample.full
              Sample.with_colors) as (l & _ & _ & _ & R & N & _).
  - vm_compute. reflexivity.
  - vm_compute. reflexivity.
  - vm_compute. reflexivity.
  - reflexivity.
  - exists l. split; [exact R | exact N].
Defined.

Lemma failed_call_leaves_traces_witness :
  ∃ e f',
    (plot_forecast Sample.sampling_model Edge.half_band Sample.on_empty_figure
       Edge.heap1).1 = Raise e
    ∧ figure_at
        (plot_forecast Sample.sampling_model Edge.half_band
           Sample.on_empty_figure Edge.heap1).2 Sample.empty_figure = Some f'
    ∧ Scatter.name <$> Figure.data f' = [Some "Forecast"; None].
Proof.
  destruct (failed_call_leaves_traces Edge.heap1 Sample.sampling_model
              Edge.half_band Sample.on_empty_figure Sample.empty_figure
              (Figure.mk [] Layout.empty)) as (e & f' & R & F & _ & D).
  - vm_compute. reflexivity.
  - vm_compute. reflexivity.
  - vm_compute. reflexivity.
  - reflexivity.
  - vm_compute. reflexivity.
  - exists e, f'. split; [exact R|]. split; [exact F|].
    rewrite D. vm_compute. reflexivity.
Defined.

Lemma second_call_appends_again_witness :
  ∃ f2,
    returned_figure
      (plot_forecast Sample.bare_model Sample.plain Sample.on_empty_figure
         (plot_forecast Sample.bare_model Sample.plain Sample.on_empty_figure
            Sample.heap0).2) = Some f2
    ∧ Scatter.name <$> Figure.data f2 = [Some "Forecast"; Some "Forecast"].
Proof.
  destruct (second_call_appends_again Sample.heap0 Sample.bare_model Sample.plain
              Sample.on_empty_figure Sample.empty_figure)
    as (f1 & f2 & added & _ & R & _ & _ & _ & _).
  - vm_compute. reflexivity.
  - vm_compute. reflexivity.
  - vm_compute. reflexivity.
  - reflexivity.
  - exists f2. split; [exact R|].
    revert R. vm_compute. intros [= <-]. reflexivity.
Defined.

Lemma legend_step_witness :
  ∃ f',
    returned_figure
      (plot_forecast Sample.fitted_model Sample.full Sample.with_colors Sample.heap0)
    = Some f'
    ∧ Layout.showlegend (Figure.layout f') = Some false.
Proof.
  destruct (legend_step Sample.heap0 Sample.fitted_model Sample.full
              Sample.with_colors) as (f' & R & Hidden & _).
  - vm_compute. reflexivity.
  - vm_compute. reflexivity.
  - vm_compute. reflexivity.
  - exists f'. split; [exact R|]. apply Hidden. reflexivity.
Defined.

Lemma empty_colors_as_none_witness :
  plot_forecast Sample.bare_model Sample.plain Edge.with_no_colors Edge.heap1
  = plot_forecast Sample.bare_model Sample.plain
      (without_colors Edge.with_no_colors) Edge.heap1.
Proof.
  apply (empty_colors_as_none Edge.heap1 Sample.bare_model Sample.plain
           Edge.with_no_colors Edge.no_colors).
  - vm_compute. reflexivity.
  - reflexivity.
  - vm_compute. reflexivity.
Defined.

Lemma missing_required_column_witness :
  (plot_forecast Sample.bare_model Edge.no_yhat Sample.on_empty_figure
     Edge.heap1).1 = Raise (KeyError "yhat")
  ∧ figure_at
      (plot_forecast Sample.bare_model Edge.no_yhat Sample.on_empty_figure
         Edge.heap1).2 Sample.empty_figure
    = Some (Figure.mk [] Layout.empty).
Proof.
  destruct (missing_required_column Edge.heap1 Sample.bare_model Edge.no_yhat
              Sample.on_empty_figure Edge.no_yhat_table) as [R Same].
  - vm_compute. reflexivity.
  - vm_compute. reflexivity.
  - reflexivity.
  - vm_compute. reflexivity.
  - right. vm_compute. reflexivity.
  - split; [exact R|]. unfold figure_at. rewrite Same.
    + vm_compute. reflexivity.
    + vm_compute. by eexists.
Defined.

Lemma history_without_column_witness :
  (plot_forecast Edge.model_without_y Sample.plain Sample.on_empty_figure
     Edge.heap1).1 = Raise (KeyError "y")
  ∧ ∃ tr,
      figure_at
        (plot_forecast Edge.model_without_y Sample.plain Sample.on_empty_figure
           Edge.heap1).2 Sample.empty_figure
      = Some (Figure.mk [tr] Layout.empty)
      ∧ Scatter.name tr = Some "Forecast".
Proof.
  destruct (history_without_column Edge.heap1 Edge.model_without_y Sample.plain
              Sample.on_empty_figure Edge.no_yhat Edge.no_yhat_table)
    as [R Fig].
  - vm_compute. reflexivity.
  - vm_compute. reflexivity.
  - vm_compute. reflexivity.
  - reflexivity.
  - vm_compute. reflexivity.
  - reflexivity.
  - vm_compute. reflexivity.
  - right. vm_compute. reflexivity.
  - split; [exact R|].
    destruct (Fig Sample.empty_figure (Figure.mk [] Layout.empty))
      as (tr & E & N).
    + reflexivity.
    + vm_compute. reflexivity.
    + exists tr. split; [exact E | exact N].
Defined.

Lemma shared_time_axis_witness :
  ∃ f',
    returned_figure
      (plot_forecast Sample.bare_model Sample.plain Options.default Sample.heap0)
    = Some f'
    ∧ Scatter.x <$> Figure.data f' = [[Timestamp 1; Timestamp 2; Timestamp 3]].
Proof.
  destruct (shared_time_axis Sample.heap0 Sample.bare_model Sample.plain
              Options.default) as (f' & added & R & _ & _).
  - vm_compute. reflexivity.
  - vm_compute. reflexivity.
  - vm_compute. reflexivity.
  - exists f'. split; [exact R|].
    revert R. vm_compute. intros [= <-]. reflexivity.
Defined.

